(** * Quick quiz: the question/answer validation and retry engine

    A shallow embedding of [1_quick_quiz/quick_quiz.py].

    - Python [str] values are modelled as [string].  The case methods
      ([str.title], [str.upper], [str.lower], [str.capitalize],
      [str.swapcase]) are modelled for ASCII text ([Str.is_ascii]: every
      character below 128), where the cased characters are [a]-[z] and
      [A]-[Z] and every other character is uncased and mapped to itself, as
      in Python.  Outside ASCII Python maps characters by the Unicode
      tables (["ß".upper()] is ["SS"]) and the definitions here say nothing
      about its result: every statement that rests on what the case methods
      do to the characters assumes [Str.is_ascii] of the strings involved.
    - Objects are records; a method is a computation in a small state and
      exception monad whose state holds the object ([self]), the lines still
      to be read by [input()] and the lines written so far.  The state
      survives a raised exception, as the mutated object does in Python.
    - [int] values are [Z]. *)

From Stdlib Require Import String Ascii List ZArith NArith Bool Lia.
From Stdlib Require Import DecimalString.
Import ListNotations.
Open Scope string_scope.
Open Scope Z_scope.

Set Implicit Arguments.

(** ** Text *)

Module Str.

Definition newline : string := String (ascii_of_N 10) EmptyString.

Definition is_lower (c : ascii) : bool :=
  let n := N_of_ascii c in ((97 <=? n) && (n <=? 122))%N.

Definition is_upper (c : ascii) : bool :=
  let n := N_of_ascii c in ((65 <=? n) && (n <=? 90))%N.

(** [_PyUnicode_IsCased] on ASCII. *)
Definition is_cased (c : ascii) : bool := is_lower c || is_upper c.

Definition upper_char (c : ascii) : ascii :=
  if is_lower c then ascii_of_N (N_of_ascii c - 32) else c.

Definition lower_char (c : ascii) : ascii :=
  if is_upper c then ascii_of_N (N_of_ascii c + 32) else c.

Definition swapcase_char (c : ascii) : ascii :=
  if is_lower c then ascii_of_N (N_of_ascii c - 32)
  else if is_upper c then ascii_of_N (N_of_ascii c + 32)
  else c.

Fixpoint map (f : ascii -> ascii) (s : string) : string :=
  match s with
  | EmptyString => EmptyString
  | String c s' => String (f c) (map f s')
  end.

(** [str.upper], [str.lower], [str.swapcase], on ASCII text. *)
Definition upper : string -> string := map upper_char.
Definition lower : string -> string := map lower_char.
Definition swapcase : string -> string := map swapcase_char.

(** [str.title], on ASCII text: a character that follows a cased character
    is lowered, any other character is title-cased; [previous_is_cased]
    starts false. *)
Fixpoint title_from (previous_is_cased : bool) (s : string) : string :=
  match s with
  | EmptyString => EmptyString
  | String c s' =>
      String (if previous_is_cased then lower_char c else upper_char c)
             (title_from (is_cased c) s')
  end.

Definition title : string -> string := title_from false.

(** [str.capitalize], on ASCII text: first character title-cased, the rest
    lowered. *)
Definition capitalize (s : string) : string :=
  match s with
  | EmptyString => EmptyString
  | String c s' => String (upper_char c) (lower s')
  end.

(** [x in l] for a list of strings. *)
Definition mem (x : string) (l : list string) : bool :=
  existsb (String.eqb x) l.

(** [str(n)] / [f"{n}"] for an [int]. *)
Definition of_Z (n : Z) : string := NilZero.string_of_int (Z.to_int n).

(** Truth value of a [str]: only the empty string is false. *)
Definition truthy (s : string) : bool :=
  match s with EmptyString => false | String _ _ => true end.

(** ["sep".join(l)] *)
Definition join (sep : string) (l : list string) : string :=
  String.concat sep l.

(** [s.isascii()]: every character of [s] is below 128.  On such strings
    the five case methods above agree with Python's. *)
Fixpoint is_ascii (s : string) : bool :=
  match s with
  | EmptyString => true
  | String c s' => (N_of_ascii c <? 128)%N && is_ascii s'
  end.

End Str.

(** ** Data model *)

(** [ResponseSettings] (dataclass). *)
Record ResponseSettings : Type := mkResponseSettings {
  correct_reponse : string;
  incorrect_response : string;
  max_attempts : Z;
  correct_points : Z
}.

(** Field defaults of [ResponseSettings]. *)
Definition ResponseSettings_default : ResponseSettings :=
  {| correct_reponse := "Correct!";
     incorrect_response := "Incorrect.";
     max_attempts := 1;
     correct_points := 1 |}.

(** [response_settings.max_attempts = n] *)
Definition set_max_attempts (n : Z) (rs : ResponseSettings) : ResponseSettings :=
  {| correct_reponse := correct_reponse rs;
     incorrect_response := incorrect_response rs;
     max_attempts := n;
     correct_points := correct_points rs |}.

(** The values of the [transformations] dictionary of [set_transformation]. *)
Inductive Transformation : Type :=
| str_title | str_upper | str_lower | str_capitalize | str_swapcase.

Definition apply_transformation (t : Transformation) : string -> string :=
  match t with
  | str_title => Str.title
  | str_upper => Str.upper
  | str_lower => Str.lower
  | str_capitalize => Str.capitalize
  | str_swapcase => Str.swapcase
  end.

(** The [transformations] dictionary, in source order. *)
Definition transformations : list (string * Transformation) :=
  [ ("title", str_title);
    ("upper", str_upper);
    ("lower", str_lower);
    ("capitalize", str_capitalize);
    ("swapcase", str_swapcase) ].

(** Dictionary lookup [d[k]] / membership [k in d]. *)
Fixpoint dict_get {V : Type} (d : list (string * V)) (k : string) : option V :=
  match d with
  | [] => None
  | (k', v) :: d' => if String.eqb k k' then Some v else dict_get d' k
  end.

(** The class of a question object: [QuizQuestion] itself or its subclass
    [MultipleChoiceQuizQuestion]; methods dispatch on it. *)
Inductive QClass : Type := Base | MultipleChoice.

(** A question object.  [options] exists on [MultipleChoice] objects only
    (it is [None] and never read on [Base] ones). *)
Record QuizQuestion : Type := mkQuizQuestion {
  cls : QClass;
  question : string;
  correct_answer : string;
  answer : option string;
  transformation_name : string;
  transformation : Transformation;
  response_settings : ResponseSettings;
  _attempt_count : Z;
  options : option (list (string * string))
}.

Definition with_question (s : string) (q : QuizQuestion) : QuizQuestion :=
  mkQuizQuestion (cls q) s (correct_answer q) (answer q)
    (transformation_name q) (transformation q) (response_settings q)
    (_attempt_count q) (options q).

Definition with_answer (a : option string) (q : QuizQuestion) : QuizQuestion :=
  mkQuizQuestion (cls q) (question q) (correct_answer q) a
    (transformation_name q) (transformation q) (response_settings q)
    (_attempt_count q) (options q).

Definition with_transformation (n : string) (t : Transformation)
    (q : QuizQuestion) : QuizQuestion :=
  mkQuizQuestion (cls q) (question q) (correct_answer q) (answer q)
    n t (response_settings q) (_attempt_count q) (options q).

Definition with_attempt_count (n : Z) (q : QuizQuestion) : QuizQuestion :=
  mkQuizQuestion (cls q) (question q) (correct_answer q) (answer q)
    (transformation_name q) (transformation q) (response_settings q)
    n (options q).

Definition with_options (o : option (list (string * string)))
    (q : QuizQuestion) : QuizQuestion :=
  mkQuizQuestion (cls q) (question q) (correct_answer q) (answer q)
    (transformation_name q) (transformation q) (response_settings q)
    (_attempt_count q) o.

(** ** Exceptions, terminal, and the method monad *)

Inductive Exn : Type :=
| ValueError (msg : string)
| TypeError
| EOFError.

(** What a run writes to the terminal, oldest first.  [Prompt s] is the
    prompt text of an [input(s)] call, [Print s] a [print(s)] line.
    [PrintInvalid a keys n] is the line
    [f"'{a}' is not a valid answer. Expecting one of the following: {keys}. {n} attempts remaining."]
    kept with its three interpolated values. *)
Inductive Out : Type :=
| Prompt (s : string)
| Print (s : string)
| PrintInvalid (given : string) (valid : list string) (remaining : Z).

Inductive Res (A : Type) : Type :=
| Return (a : A)
| Raise (e : Exn).
Arguments Raise {A} e.

(** [self] is the object the method runs on, [stdin] the lines [input()]
    has still to read, [stdout] what was written so far. *)
Record State (S : Type) : Type := mkState {
  self : S;
  stdin : list string;
  stdout : list Out
}.

Definition M (S A : Type) : Type := State S -> Res A * State S.

Definition ret {S A} (a : A) : M S A := fun st => (Return a, st).

Definition bind {S A B} (m : M S A) (k : A -> M S B) : M S B :=
  fun st =>
    match m st with
    | (Return a, st') => k a st'
    | (Raise e, st') => (Raise e, st')
    end.

Definition raise {S A} (e : Exn) : M S A := fun st => (Raise e, st).

Declare Scope method_scope.
Delimit Scope method_scope with method.
Notation "x <- m ;; k" := (bind m (fun x => k))
  (at level 61, m at next level, right associativity) : method_scope.
Notation "m ;; k" := (bind m (fun _ => k))
  (at level 61, right associativity) : method_scope.
Open Scope method_scope.

Definition get_self {S} : M S S := fun st => (Return (self st), st).

Definition update_self {S} (f : S -> S) : M S unit :=
  fun st => (Return tt, mkState (f (self st)) (stdin st) (stdout st)).

(** [print(s)] and its structured variant. *)
Definition emit {S} (o : Out) : M S unit :=
  fun st => (Return tt, mkState (self st) (stdin st) (stdout st ++ [o])).

Definition print {S} (s : string) : M S unit := emit (Print s).

(** [input(prompt)]: writes the prompt, then reads one line; at end of
    input it raises [EOFError]. *)
Definition input {S} (prompt : string) : M S string :=
  fun st =>
    match stdin st with
    | [] => (Raise EOFError, mkState (self st) [] (stdout st ++ [Prompt prompt]))
    | line :: rest =>
        (Return line, mkState (self st) rest (stdout st ++ [Prompt prompt]))
    end.

(** A pure, possibly raising, computation used inside a method. *)
Definition lift {S A} (r : Res A) : M S A := fun st => (r, st).

(** Iterating [self.options]: [None] is not iterable. *)
Definition iter_options (o : option (list (string * string)))
  : Res (list (string * string)) :=
  match o with
  | None => Raise TypeError
  | Some l => Return l
  end.

(** Truth value of [self.options]: [None] and [[]] are false. *)
Definition options_truthy (o : option (list (string * string))) : bool :=
  match o with
  | None | Some [] => false
  | Some (_ :: _) => true
  end.

(** Truth value of [self.answer]: [None] and the empty string are false. *)
Definition answer_truthy (a : option string) : bool :=
  match a with
  | None => false
  | Some s => Str.truthy s
  end.

(** ** [QuizQuestion] and [MultipleChoiceQuizQuestion] *)

Definition Method : Type -> Type := M QuizQuestion.

(** [QuizQuestion.transform] *)
Definition transform (q : QuizQuestion) (text : string) : string :=
  apply_transformation (transformation q) text.

(** [QuizQuestion.is_correct_answer] (property).  [str] methods reject
    [None], the value of [answer] before the first prompt. *)
Definition is_correct_answer (q : QuizQuestion) : Res bool :=
  match answer q with
  | None => Raise TypeError
  | Some a => Return (String.eqb (transform q a) (transform q (correct_answer q)))
  end.

(** [QuizQuestion.attempt_count] (property). *)
Definition attempt_count (q : QuizQuestion) : Z := _attempt_count q.

(** [QuizQuestion.increment_attempts] *)
Definition increment_attempts : Method unit :=
  update_self (fun q => with_attempt_count (_attempt_count q + 1) q).

(** [QuizQuestion.set_transformation] *)
Definition set_transformation (name : string) : Method unit :=
  match dict_get transformations name with
  | Some t => update_self (with_transformation name t)
  | None => raise (ValueError ("Invalid transformation: " ++ name))
  end.

(** [QuizQuestion.__post_init__] *)
Definition QuizQuestion_post_init : Method unit :=
  q <- get_self ;;
  set_transformation (transformation_name q) ;;
  update_self (with_attempt_count 0) ;;
  update_self (with_answer None).

(** [MultipleChoiceQuizQuestion.__post_init__] *)
Definition MultipleChoice_post_init : Method unit :=
  update_self (fun q =>
    mkQuizQuestion (cls q) (question q) (correct_answer q) (answer q)
      (transformation_name q) (transformation q)
      (set_max_attempts 3 (response_settings q))
      (_attempt_count q) (options q)) ;;
  QuizQuestion_post_init.

Definition post_init (c : QClass) : Method unit :=
  match c with
  | Base => QuizQuestion_post_init
  | MultipleChoice => MultipleChoice_post_init
  end.

(** The dataclass-generated [__init__]: it stores the arguments, then calls
    [__post_init__].  [answer], [transformation] and [_attempt_count] are
    not assigned before [__post_init__] runs; the record holds [None],
    [str_title] and [0] in their place, all three overwritten there.
    The second component is the caller's [response_settings] object after
    the call: the question holds that very object, so what
    [__post_init__] assigns to it is assigned for the caller too, also when
    the constructor raises. *)
Definition construct (c : QClass) (text correct : string) (tname : string)
    (rs : ResponseSettings) (opts : option (list (string * string)))
  : Res QuizQuestion * ResponseSettings :=
  let raw := mkQuizQuestion c text correct None tname str_title rs 0 opts in
  match post_init c (mkState raw [] []) with
  | (Return _, st) => (Return (self st), response_settings (self st))
  | (Raise e, st) => (Raise e, response_settings (self st))
  end.

(** [QuizQuestion(question, correct_answer, transformation_name, response_settings)] *)
Definition new_QuizQuestion (text correct tname : string)
    (rs : ResponseSettings) : Res QuizQuestion :=
  fst (construct Base text correct tname rs None).

(** [MultipleChoiceQuizQuestion(question, correct_answer, transformation_name,
    response_settings, options)] *)
Definition new_MultipleChoiceQuizQuestion (text correct tname : string)
    (rs : ResponseSettings) (opts : option (list (string * string)))
  : Res QuizQuestion :=
  fst (construct MultipleChoice text correct tname rs opts).

(** [MultipleChoiceQuizQuestion.valid_possible_answers] (property). *)
Definition valid_possible_answers (q : QuizQuestion) : Res (list string) :=
  match iter_options (options q) with
  | Return l => Return (map (fun option => transform q (fst option)) l)
  | Raise e => Raise e
  end.

(** [MultipleChoiceQuizQuestion.add_option] *)
Definition add_option (option_item : string * string) : Method unit :=
  update_self (fun q =>
    let current :=
      match options q with
      | Some (o :: l) => o :: l
      | Some [] | None => []          (* [if not self.options: self.options = []] *)
      end in
    with_options
      (Some (current ++ [(fst option_item, snd option_item)])%list) q).

(** [QuizQuestion.prompt_question] *)
Definition QuizQuestion_prompt_question : Method unit :=
  q <- get_self ;;
  a <- input (question q ++ Str.newline ++ "> ") ;;
  update_self (with_answer (Some a)).

(** [MultipleChoiceQuizQuestion.prompt_question] *)
Definition MultipleChoice_prompt_question : Method unit :=
  q <- get_self ;;
  (if negb (options_truthy (options q))
   then QuizQuestion_prompt_question else ret tt) ;;
  q <- get_self ;;
  items <- lift (iter_options (options q)) ;;
  let question_with_options :=
    (question q ++ Str.newline) ++
    Str.join Str.newline
      (map (fun item => "  " ++ fst item ++ ": " ++ snd item) items) in
  a <- input (question_with_options ++ Str.newline ++ "> ") ;;
  update_self (with_answer (Some a)).

Definition prompt_question : Method unit :=
  q <- get_self ;;
  match cls q with
  | Base => QuizQuestion_prompt_question
  | MultipleChoice => MultipleChoice_prompt_question
  end.

(** [QuizQuestion.validate_response] *)
Definition QuizQuestion_validate_response : Method bool :=
  q <- get_self ;;
  if negb (Str.truthy (correct_answer q)) then
    raise (ValueError ("No correct answer provided for " ++ question q))
  else if negb (answer_truthy (answer q)) then
    raise (ValueError ("No answer provided for " ++ question q))
  else ret true.

(** [MultipleChoiceQuizQuestion.validate_response] *)
Definition MultipleChoice_validate_response : Method bool :=
  q <- get_self ;;
  if negb (Str.truthy (correct_answer q)) then
    raise (ValueError ("No correct answer provided for " ++ question q))
  else if negb (answer_truthy (answer q)) then
    raise (ValueError ("No answer provided for " ++ question q))
  else
    (if negb (options_truthy (options q))
     then QuizQuestion_validate_response else ret true) ;;
    valid <- lift (valid_possible_answers q) ;;
    if negb (Str.mem (correct_answer q) valid) then
      raise (ValueError "Correct answer is not available")
    else
      match answer q with
      | None => raise TypeError
      | Some a =>
          if negb (Str.mem (transform q a) valid) then
            emit (PrintInvalid a valid
                    (max_attempts (response_settings q) - attempt_count q)) ;;
            ret false
          else ret true
      end.

Definition validate_response : Method bool :=
  q <- get_self ;;
  match cls q with
  | Base => QuizQuestion_validate_response
  | MultipleChoice => MultipleChoice_validate_response
  end.

(** [QuizQuestion.print_question_header]; the [question_number] argument is
    false when it is [None] or [0]. *)
Definition print_question_header (question_number : option Z) : Method unit :=
  q <- get_self ;;
  if attempt_count q =? 0 then
    let question_header := "" in
    (match question_number with
     | Some n =>
         if negb (n =? 0)
         then update_self (with_question (Str.of_Z n ++ ". " ++ question q))
         else ret tt
     | None => ret tt
     end) ;;
    print question_header
  else ret tt.

(** The [while] loop of [handle_question_and_answer].  Every iteration
    increments [attempt_count], so [max_attempts - attempt_count] iterations
    are all the loop can make; [while_retry] starts [retry_loop] with that
    many ([while_retry_unfold] below is the loop's equation). *)
Fixpoint retry_loop (fuel : nat) (max_attempts : Z) (is_valid_response : bool)
  : Method bool :=
  match fuel with
  | O => ret is_valid_response
  | S fuel' =>
      q <- get_self ;;
      if negb is_valid_response && (attempt_count q <? max_attempts) then
        prompt_question ;;
        increment_attempts ;;
        is_valid_response <- validate_response ;;
        retry_loop fuel' max_attempts is_valid_response
      else ret is_valid_response
  end.

Definition while_retry (max_attempts : Z) (is_valid_response : bool)
  : Method bool :=
  q <- get_self ;;
  retry_loop (Z.to_nat (max_attempts - attempt_count q))
    max_attempts is_valid_response.

(** [handle_question_and_answer], up to the end of its [while] loop; the
    value is the pair of its locals [max_attempts] and [is_valid_response]. *)
Definition ask_until_valid (question_number : option Z) : Method (Z * bool) :=
  print_question_header question_number ;;
  prompt_question ;;
  increment_attempts ;;
  is_valid_response <- validate_response ;;
  q <- get_self ;;
  let max_attempts := max_attempts (response_settings q) in
  is_valid_response <- while_retry max_attempts is_valid_response ;;
  ret (max_attempts, is_valid_response).

(** The two [if] statements that end [handle_question_and_answer]. *)
Definition report_outcome (max_attempts : Z) (is_valid_response : bool)
  : Method unit :=
  q <- get_self ;;
  (if negb is_valid_response && (attempt_count q =? max_attempts) then
     print ("Maximum number of attempts (" ++ Str.of_Z max_attempts
            ++ ") reached for this question")
   else ret tt) ;;
  correct <- lift (is_correct_answer q) ;;
  if correct then print (correct_reponse (response_settings q))
  else print (incorrect_response (response_settings q)).

(** [QuizQuestion.handle_question_and_answer] *)
Definition handle_question_and_answer (question_number : option Z)
  : Method unit :=
  locals <- ask_until_valid question_number ;;
  report_outcome (fst locals) (snd locals).

(** ** [SimpleQuiz] *)

Record SimpleQuiz : Type := mkSimpleQuiz { score : Z }.

Definition Quiz : Type -> Type := M SimpleQuiz.

(** A method call [obj.m(...)] on a question object held in a local
    variable: the method runs on [obj] and on the caller's terminal; the
    caller gets the value and the object as the call left it. *)
Definition call {A} (obj : QuizQuestion) (m : Method A)
  : Quiz (A * QuizQuestion) :=
  fun st =>
    match m (mkState obj (stdin st) (stdout st)) with
    | (Return a, st') =>
        (Return (a, self st'), mkState (self st) (stdin st') (stdout st'))
    | (Raise e, st') => (Raise e, mkState (self st) (stdin st') (stdout st'))
    end.

(** The [response_settings] local of [SimpleQuiz.startup]. *)
Definition startup_response_settings : ResponseSettings :=
  {| correct_reponse := "Great! Let's play :)";
     incorrect_response := "Another time then! Goodbye :)";
     max_attempts := 2;
     correct_points := 0 |}.

(** [SimpleQuiz.startup] up to its [return]: the gate question after
    [handle_question_and_answer]. *)
Definition startup_question : Quiz QuizQuestion :=
  print "Welcome to my computer quiz!" ;;
  let response_settings := startup_response_settings in
  question <- lift (new_MultipleChoiceQuizQuestion
                      "Do you want to play?" "Y" "title" response_settings None) ;;
  r <- call question (add_option ("Y", "Yes")) ;;
  r <- call (snd r) (add_option ("N", "No")) ;;
  r <- call (snd r) (handle_question_and_answer None) ;;
  ret (snd r).

(** [SimpleQuiz.startup] *)
Definition startup : Quiz bool :=
  question <- startup_question ;;
  lift (is_correct_answer question).

(** [SimpleQuiz.get_list_of_questions] (and the [questions] property). *)
Definition get_list_of_questions : Res (list QuizQuestion) :=
  match
    new_QuizQuestion "What does CPU stand for?" "Central Processing Unit"
      "title" ResponseSettings_default,
    new_QuizQuestion "What does RAM stand for?" "Random Access Memory"
      "title" ResponseSettings_default,
    new_QuizQuestion "What does GPU stand for?" "Graphics Processing Unit"
      "title" ResponseSettings_default,
    new_MultipleChoiceQuizQuestion "Which answer is A?" "A"
      "title" ResponseSettings_default
      (Some [("A", "Answer A"); ("B", "Answer B")])
  with
  | Return q1, Return q2, Return q3, Return q4 => Return [q1; q2; q3; q4]
  | Raise e, _, _, _ => Raise e
  | _, Raise e, _, _ => Raise e
  | _, _, Raise e, _ => Raise e
  | _, _, _, Raise e => Raise e
  end.

(** [SimpleQuiz.update_score] *)
Definition update_score (question : QuizQuestion) : Quiz unit :=
  correct <- lift (is_correct_answer question) ;;
  if correct then
    update_self (fun quiz =>
      mkSimpleQuiz (score quiz + correct_points (response_settings question)))
  else ret tt.

(** The [for] loop of [start_quiz] over [enumerate(self.questions)], from
    index [num] on. *)
Fixpoint start_quiz_from (num : Z) (questions : list QuizQuestion) : Quiz unit :=
  match questions with
  | [] => ret tt
  | question :: rest =>
      r <- call question (handle_question_and_answer (Some (num + 1))) ;;
      update_score (snd r) ;;
      start_quiz_from (num + 1) rest
  end.

(** [SimpleQuiz.start_quiz] *)
Definition start_quiz : Quiz unit :=
  questions <- lift get_list_of_questions ;;
  start_quiz_from 0 questions.

(** [SimpleQuiz.display_score] *)
Definition display_score : Quiz unit :=
  quiz <- get_self ;;
  questions <- lift get_list_of_questions ;;
  print (Str.newline ++ "Score: " ++ Str.of_Z (score quiz) ++ " / "
         ++ Str.of_Z (Z.of_nat (length questions))).

(** The body of [main], over the two methods it calls when the gate opens. *)
Definition main_with (start_quiz display_score : Quiz unit) : Quiz unit :=
  play <- startup ;;
  if play then start_quiz ;; display_score else ret tt.

(** [main()] on the given input lines: [quiz = SimpleQuiz()], then the body. *)
Definition main (lines : list string) : Res unit * State SimpleQuiz :=
  main_with start_quiz display_score (mkState (mkSimpleQuiz 0) lines []).

(** A question object on a terminal, for runs of a single method. *)
Definition on (q : QuizQuestion) (lines : list string) : State QuizQuestion :=
  mkState q lines [].

(** The keys of the [transformations] dictionary. *)
Definition supported_modes : list string :=
  ["title"; "upper"; "lower"; "capitalize"; "swapcase"].

(** The text [QuizQuestion.prompt_question] passes to [input]. *)
Definition base_prompt (q : QuizQuestion) : string :=
  question q ++ Str.newline ++ "> ".

(** What no method of a question changes once it is constructed: its class,
    correct answer, transformation, settings and options. *)
Definition same_config (q q' : QuizQuestion) : Prop :=
  cls q' = cls q /\ correct_answer q' = correct_answer q
  /\ transformation q' = transformation q
  /\ response_settings q' = response_settings q
  /\ options q' = options q.

(** The gate question of [SimpleQuiz.startup] as it stands when
    [handle_question_and_answer] is called on it ([startup_question_eq]). *)
Definition gate_question : QuizQuestion :=
  {| cls := MultipleChoice;
     question := "Do you want to play?";
     correct_answer := "Y";
     answer := None;
     transformation_name := "title";
     transformation := str_title;
     response_settings := set_max_attempts 3 startup_response_settings;
     _attempt_count := 0;
     options := Some [("Y", "Yes"); ("N", "No")] |}.

(** The fourth question of the bank, as [get_list_of_questions] builds it. *)
Definition which_answer_is_A : QuizQuestion :=
  {| cls := MultipleChoice;
     question := "Which answer is A?";
     correct_answer := "A";
     answer := None;
     transformation_name := "title";
     transformation := str_title;
     response_settings := set_max_attempts 3 ResponseSettings_default;
     _attempt_count := 0;
     options := Some [("A", "Answer A"); ("B", "Answer B")] |}.

(** The text [MultipleChoiceQuizQuestion.prompt_question] passes to [input]
    when the options are [items]. *)
Definition choice_prompt (q : QuizQuestion) (items : list (string * string))
  : string :=
  ((question q ++ Str.newline) ++
   Str.join Str.newline
     (map (fun item => "  " ++ fst item ++ ": " ++ snd item) items))
  ++ Str.newline ++ "> ".

(** The normalized option keys, for a question whose options are [items]. *)
Definition normalized_keys (q : QuizQuestion) (items : list (string * string))
  : list string :=
  map (fun option => transform q (fst option)) items.

(** A question whose [prompt_question] calls [input] once: a base question,
    or a multiple-choice one whose [options] is a non-empty list. *)
Definition prompts_once (q : QuizQuestion) : bool :=
  match cls q with
  | Base => true
  | MultipleChoice => options_truthy (options q)
  end.

(** The notice [handle_question_and_answer] prints on exhaustion. *)
Definition attempts_notice (max_attempts : Z) : string :=
  "Maximum number of attempts (" ++ Str.of_Z max_attempts
  ++ ") reached for this question".

(** The feedback line [handle_question_and_answer] ends with when the last
    answer read is [a]. *)
Definition verdict_line (q : QuizQuestion) (a : string) : string :=
  if String.eqb (transform q a) (transform q (correct_answer q))
  then correct_reponse (response_settings q)
  else incorrect_response (response_settings q).

(** A line [validate_response] of a multiple-choice question with options
    [items] returns [False] on (non-empty, not an option key once
    normalized), and one it returns [True] on. *)
Definition invalid_line (q : QuizQuestion) (items : list (string * string))
    (line : string) : bool :=
  Str.truthy line && negb (Str.mem (transform q line) (normalized_keys q items)).

Definition valid_line (q : QuizQuestion) (items : list (string * string))
    (line : string) : bool :=
  Str.truthy line && Str.mem (transform q line) (normalized_keys q items).

(** [add_option] called for each item of a list in turn. *)
Fixpoint add_options (items : list (string * string)) : Method unit :=
  match items with
  | [] => ret tt
  | item :: rest => add_option item ;; add_options rest
  end.

(** * Properties *)

(** ** Runs on concrete input *)

Example title_cpu :
  Str.title "central processing unit" = "Central Processing Unit".
Proof. reflexivity. Qed.

Example title_mixed : Str.title "hELLO wORLD 3d x" = "Hello World 3D X".
Proof. reflexivity. Qed.

Example capitalize_mixed : Str.capitalize "hELLO wORLD" = "Hello world".
Proof. reflexivity. Qed.

Example of_Z_examples :
  (Str.of_Z 0, Str.of_Z 4, Str.of_Z 12, Str.of_Z (-3)) = ("0", "4", "12", "-3").
Proof. reflexivity. Qed.

Example quiz_run :
  main ["y"; "central processing unit"; "x"; "graphics processing unit"; "c"; "b"]
  = (Return tt,
     mkState (mkSimpleQuiz 2) []
       [ Print "Welcome to my computer quiz!"; Print "";
         Prompt ("Do you want to play?" ++ Str.newline ++ "  Y: Yes" ++ Str.newline
                 ++ "  N: No" ++ Str.newline ++ "> ");
         Print "Great! Let's play :)"; Print "";
         Prompt ("1. What does CPU stand for?" ++ Str.newline ++ "> ");
         Print "Correct!"; Print "";
         Prompt ("2. What does RAM stand for?" ++ Str.newline ++ "> ");
         Print "Incorrect."; Print "";
         Prompt ("3. What does GPU stand for?" ++ Str.newline ++ "> ");
         Print "Correct!"; Print "";
         Prompt ("4. Which answer is A?" ++ Str.newline ++ "  A: Answer A"
                 ++ Str.newline ++ "  B: Answer B" ++ Str.newline ++ "> ");
         PrintInvalid "c" ["A"; "B"] 2;
         Prompt ("4. Which answer is A?" ++ Str.newline ++ "  A: Answer A"
                 ++ Str.newline ++ "  B: Answer B" ++ Str.newline ++ "> ");
         Print "Incorrect.";
         Print (Str.newline ++ "Score: 2 / 4") ]).
Proof. vm_compute. reflexivity. Qed.

(** ** The normalizer *)

Section Characters.

Local Ltac by_cases c := destruct c as [[] [] [] [] [] [] [] []]; reflexivity.


Lemma lower_char_idem c : Str.lower_char (Str.lower_char c) = Str.lower_char c.
Proof. by_cases c. Qed.

Lemma lower_upper_char c : Str.lower_char (Str.upper_char c) = Str.lower_char c.
Proof. by_cases c. Qed.

Lemma swapcase_char_invol c : Str.swapcase_char (Str.swapcase_char c) = c.
Proof. by_cases c. Qed.


Lemma is_cased_lower_char c : Str.is_cased (Str.lower_char c) = Str.is_cased c.
Proof. by_cases c. Qed.

End Characters.

Lemma map_idem f s :
  (forall c, f (f c) = f c) -> Str.map f (Str.map f s) = Str.map f s.
Proof.
  intros Hf. induction s as [|c s IH]; simpl; [reflexivity|].
  now rewrite Hf, IH.
Qed.


Lemma lower_idem s : Str.lower (Str.lower s) = Str.lower s.
Proof. apply map_idem, lower_char_idem. Qed.

Lemma map_invol f s :
  (forall c, f (f c) = c) -> Str.map f (Str.map f s) = s.
Proof.
  intros Hf. induction s as [|c s IH]; simpl; [reflexivity|].
  now rewrite Hf, IH.
Qed.

Lemma swapcase_invol s : Str.swapcase (Str.swapcase s) = s.
Proof. apply map_invol, swapcase_char_invol. Qed.







(** ** Selecting a mode *)

Lemma supported_modes_keys : supported_modes = map fst transformations.
Proof. reflexivity. Qed.

Lemma dict_get_supported name :
  dict_get transformations name = None <-> Str.mem name supported_modes = false.
Proof.
  cbv [dict_get transformations Str.mem supported_modes existsb].
  destruct (String.eqb name "title"), (String.eqb name "upper"),
    (String.eqb name "lower"), (String.eqb name "capitalize"),
    (String.eqb name "swapcase"); simpl; split; congruence.
Qed.

Lemma construct_eq c text correct tname rs opts :
  construct c text correct tname rs opts
  = let rs' := match c with
               | Base => rs
               | MultipleChoice => set_max_attempts 3 rs
               end in
    match dict_get transformations tname with
    | Some t =>
        (Return (mkQuizQuestion c text correct None tname t rs' 0 opts), rs')
    | None => (Raise (ValueError ("Invalid transformation: " ++ tname)), rs')
    end.
Proof.
  unfold construct, post_init, MultipleChoice_post_init, QuizQuestion_post_init,
    set_transformation.
  destruct c; cbv [bind get_self update_self self stdin stdout];
    cbn [transformation_name];
    destruct (dict_get transformations tname); reflexivity.
Qed.

(** C9: an unrecognized mode name makes [set_transformation] raise
    [ValueError] at once, and so does constructing a question of either
    class with it; with one of the five recognized names both succeed. *)
Theorem unrecognized_mode_fails_when_set (name : string) :
  if Str.mem name supported_modes then
    (forall st, exists q',
        set_transformation name st = (Return tt, mkState q' (stdin st) (stdout st))
        /\ transformation_name q' = name
        /\ dict_get transformations name = Some (transformation q'))
    /\ (forall c text correct rs opts, exists q,
          fst (construct c text correct name rs opts) = Return q
          /\ transformation_name q = name)
  else
    (forall st,
        set_transformation name st
        = (Raise (ValueError ("Invalid transformation: " ++ name)), st))
    /\ (forall c text correct rs opts,
          fst (construct c text correct name rs opts)
          = Raise (ValueError ("Invalid transformation: " ++ name))).
Proof.
  destruct (Str.mem name supported_modes) eqn:Hmem.
  - destruct (dict_get transformations name) as [t|] eqn:Hget.
    + split.
      * intros st. exists (with_transformation name t (self st)).
        unfold set_transformation. rewrite Hget. repeat split.
      * intros c text correct rs opts. rewrite construct_eq, Hget.
        eexists. split; reflexivity.
    + apply dict_get_supported in Hget. congruence.
  - apply dict_get_supported in Hmem. split.
    + intros st. unfold set_transformation. now rewrite Hmem.
    + intros c text correct rs opts. now rewrite construct_eq, Hmem.
Qed.

(** ** Constructing a multiple-choice question *)

(** C5: the constructor of [MultipleChoiceQuizQuestion] assigns 3 to
    [max_attempts] of the settings object it was given, whatever value it
    held, and changes no other field; the startup gate, built with
    [max_attempts=2], therefore runs with 3 (it accepts a third answer). *)
Theorem multiple_choice_overwrites_max_attempts
    (text correct tname : string) (rs : ResponseSettings)
    (opts : option (list (string * string))) :
  let r := construct MultipleChoice text correct tname rs opts in
  (max_attempts (snd r) = 3
   /\ correct_reponse (snd r) = correct_reponse rs
   /\ incorrect_response (snd r) = incorrect_response rs
   /\ correct_points (snd r) = correct_points rs)
  /\ match new_MultipleChoiceQuizQuestion text correct tname rs opts with
     | Return q => response_settings q = snd r
     | Raise _ => dict_get transformations tname = None
     end
  /\ (max_attempts startup_response_settings = 2
      /\ exists gate,
          new_MultipleChoiceQuizQuestion "Do you want to play?" "Y" "title"
            startup_response_settings None = Return gate
          /\ max_attempts (response_settings gate) = 3
          /\ fst (startup (mkState (mkSimpleQuiz 0) ["q"; "r"; "y"] []))
             = Return true).
Proof.
  unfold new_MultipleChoiceQuizQuestion. cbv zeta. rewrite construct_eq.
  split; [|split].
  - destruct (dict_get transformations tname); repeat split.
  - destruct (dict_get transformations tname); reflexivity.
  - split; [reflexivity|]. eexists. split; [reflexivity|].
    split; [reflexivity|]. vm_compute. reflexivity.
Qed.

(** ** Reasoning about methods *)

Lemma bind_inv {S A B} (m : M S A) (k : A -> M S B) st r st' :
  bind m k st = (r, st') ->
  (exists a st1, m st = (Return a, st1) /\ k a st1 = (r, st'))
  \/ (exists e, m st = (Raise e, st') /\ r = Raise e).
Proof.
  unfold bind. destruct (m st) as [[a|e] st1]; intros H.
  - left. eauto.
  - right. inversion H; subst. eauto.
Qed.

Lemma bind_Return_inv {S A B} (m : M S A) (k : A -> M S B) st b st' :
  bind m k st = (Return b, st') ->
  exists a st1, m st = (Return a, st1) /\ k a st1 = (Return b, st').
Proof.
  intros H. apply bind_inv in H as [H|[e [_ H]]]; [exact H|discriminate].
Qed.

Lemma same_config_refl q : same_config q q.
Proof. repeat split. Qed.

Lemma same_config_trans q1 q2 q3 :
  same_config q1 q2 -> same_config q2 q3 -> same_config q1 q3.
Proof. unfold same_config. intuition congruence. Qed.

(** Case analysis on every [match] of a run that was unfolded to its
    primitive steps. *)
Ltac run_cases :=
  repeat match goal with
    | H : (_, _) = (_, _) |- _ => inversion H; subst; clear H
    | H : context [match ?x with _ => _ end] |- _ => destruct x eqn:?
    | H : context [if ?x then _ else _] |- _ => destruct x eqn:?
    end.

Ltac unfold_methods :=
  cbv [prompt_question QuizQuestion_prompt_question MultipleChoice_prompt_question
       validate_response QuizQuestion_validate_response
       MultipleChoice_validate_response valid_possible_answers iter_options
       print_question_header increment_attempts
       bind ret raise lift get_self update_self emit print input] in *;
  cbn [self stdin stdout] in *.

Lemma prompt_question_frame st r st' :
  prompt_question st = (r, st') ->
  same_config (self st) (self st')
  /\ attempt_count (self st') = attempt_count (self st)
  /\ question (self st') = question (self st).
Proof.
  destruct st as [q lines out]. intros H. unfold_methods.
  run_cases; cbn; repeat split.
Qed.

Lemma prompt_question_answer st st' :
  prompt_question st = (Return tt, st') ->
  exists line, answer (self st') = Some line /\ In line (stdin st).
Proof.
  destruct st as [q lines out]. intros H. unfold_methods.
  run_cases; cbn [self stdin stdout] in *; subst; cbn;
    eexists; (split; [reflexivity|]); cbn; auto.
Qed.

Lemma validate_response_frame st r st' :
  validate_response st = (r, st') ->
  self st' = self st /\ stdin st' = stdin st
  /\ (r = Return false -> cls (self st) = MultipleChoice).
Proof.
  destruct st as [q lines out]. intros H. unfold_methods.
  run_cases; cbn; repeat split; congruence.
Qed.

Lemma print_question_header_frame qn st r st' :
  print_question_header qn st = (r, st') ->
  r = Return tt
  /\ same_config (self st) (self st')
  /\ attempt_count (self st') = attempt_count (self st)
  /\ answer (self st') = answer (self st)
  /\ stdin st' = stdin st.
Proof.
  destruct st as [q lines out]. intros H. unfold_methods.
  run_cases; cbn; repeat split.
Qed.

(** One attempt: prompt, count, validate; then the continuation [k]. *)
Lemma attempt_inv {B} (k : bool -> Method B) st r st' :
  (prompt_question ;; increment_attempts ;; v <- validate_response ;; k v) st
  = (r, st') ->
  (exists v st1,
      k v st1 = (r, st')
      /\ same_config (self st) (self st1)
      /\ attempt_count (self st1) = attempt_count (self st) + 1
      /\ (exists line, answer (self st1) = Some line /\ In line (stdin st))
      /\ (v = false -> cls (self st) = MultipleChoice))
  \/ (exists e, r = Raise e
      /\ same_config (self st) (self st')
      /\ attempt_count (self st) <= attempt_count (self st')
         <= attempt_count (self st) + 1).
Proof.
  intros H.
  apply bind_inv in H as [(u & s1 & Hp & H)|(e & Hp & ->)].
  2:{ right. exists e. apply prompt_question_frame in Hp as (Hc & Hn & _).
      split; [reflexivity|]. split; [exact Hc|]. lia. }
  destruct u.
  pose proof (prompt_question_frame _ Hp) as (Hc & Hn & _).
  apply prompt_question_answer in Hp as (line & Hline & Hin).
  apply bind_inv in H as [(u & s2 & Hi & H)|(e & Hi & _)].
  2:{ discriminate Hi. }
  unfold increment_attempts, update_self in Hi.
  inversion Hi; subst u s2; clear Hi.
  apply bind_inv in H as [(v & s3 & Hv & H)|(e & Hv & ->)].
  - apply validate_response_frame in Hv as (Hs & _ & Hf).
    cbn [self] in Hs, Hf.
    left. exists v, s3. split; [exact H|]. rewrite Hs. cbn.
    repeat split; try apply Hc.
    + unfold attempt_count in *. cbn. lia.
    + exists line. split; [exact Hline|exact Hin].
    + intros ->. rewrite <- (proj1 Hc). cbn in Hf. now apply Hf.
  - apply validate_response_frame in Hv as (Hs & _ & _).
    cbn [self] in Hs. right. exists e. rewrite Hs. cbn.
    split; [reflexivity|]. split; [repeat split; apply Hc|].
    unfold attempt_count in *. cbn. lia.
Qed.

(** ** The retry loop *)

Lemma bind_ext_on {S A B} (m : M S A) (k1 k2 : A -> M S B) st :
  (forall a st1, m st = (Return a, st1) -> k1 a st1 = k2 a st1) ->
  bind m k1 st = bind m k2 st.
Proof.
  intros H. unfold bind. destruct (m st) as [[a|e] st1]; [|reflexivity].
  now apply H.
Qed.

(** With at least [max_attempts - attempt_count] iterations allowed,
    [retry_loop] does what the source's [while] statement does: it tests the
    condition, and runs the body and loops again when it holds. *)
Lemma retry_loop_unfold fuel max v st :
  (Z.to_nat (max - attempt_count (self st)) <= fuel)%nat ->
  retry_loop fuel max v st
  = if negb v && (attempt_count (self st) <? max) then
      (prompt_question ;; increment_attempts ;;
       v' <- validate_response ;; retry_loop (Nat.pred fuel) max v') st
    else (Return v, st).
Proof.
  intros Hfuel. destruct fuel as [|fuel]; cbn [retry_loop Nat.pred].
  - destruct (negb v && (attempt_count (self st) <? max)) eqn:Hc; [|reflexivity].
    apply andb_true_iff in Hc as [_ Hc]. apply Z.ltb_lt in Hc. lia.
  - unfold bind at 1, get_self.
    destruct (negb v && (attempt_count (self st) <? max)); reflexivity.
Qed.

(** The equation of the [while] loop of [handle_question_and_answer]:
    [while_retry] never runs short of iterations. *)
Lemma while_retry_unfold max v st :
  while_retry max v st
  = if negb v && (attempt_count (self st) <? max) then
      (prompt_question ;; increment_attempts ;;
       v' <- validate_response ;; while_retry max v') st
    else (Return v, st).
Proof.
  unfold while_retry at 1. unfold bind at 1, get_self.
  rewrite retry_loop_unfold by lia.
  destruct (negb v && (attempt_count (self st) <? max)) eqn:Hc; [|reflexivity].
  apply bind_ext_on. intros [] s1 Hp.
  apply prompt_question_frame in Hp as (_ & Hn1 & _).
  apply bind_ext_on. intros [] s2 Hi.
  unfold increment_attempts, update_self in Hi. inversion Hi; subst s2; clear Hi.
  apply bind_ext_on. intros v' s3 Hv.
  apply validate_response_frame in Hv as (Hs & _ & _). cbn [self] in Hs.
  unfold while_retry, bind, get_self. f_equal.
  rewrite Hs. unfold attempt_count in *. cbn. lia.
Qed.

(** What holds when the loop returns. *)
Lemma retry_loop_inv fuel : forall max v st v' st',
  retry_loop fuel max v st = (Return v', st') ->
  (Z.to_nat (max - attempt_count (self st)) <= fuel)%nat ->
  attempt_count (self st) <= max ->
  same_config (self st) (self st')
  /\ attempt_count (self st) <= attempt_count (self st') <= max
  /\ (v' = false -> attempt_count (self st') = max)
  /\ (v = true -> v' = true /\ st' = st)
  /\ ((exists a, answer (self st) = Some a) -> exists a, answer (self st') = Some a).
Proof.
  induction fuel as [|fuel IH]; intros max v st v' st' H Hfuel Hle;
    rewrite retry_loop_unfold in H by exact Hfuel;
    destruct (negb v && (attempt_count (self st) <? max)) eqn:Hc.
  1,3: apply andb_true_iff in Hc as [Hv Hc]; apply Z.ltb_lt in Hc;
       apply negb_true_iff in Hv.
  - lia.
  - cbn [Nat.pred] in H.
    apply attempt_inv in H as [(w & s1 & Hk & Hcfg & Hn & Ha & _)|(e & He & _)];
      [|discriminate].
    apply IH in Hk as (Hcfg' & Hn' & Hx & _ & Ha'); [|lia|lia].
    split; [eapply same_config_trans; eassumption|].
    split; [lia|]. split; [exact Hx|]. split; [congruence|].
    intros _. apply Ha'. destruct Ha as (line & Hl & _). eauto.
  - inversion H; subst v' st'; clear H.
    split; [apply same_config_refl|]. split; [lia|].
    split; [|split; [tauto|tauto]].
    intros ->. cbn in Hc. apply Z.ltb_ge in Hc. lia.
  - inversion H; subst v' st'; clear H.
    split; [apply same_config_refl|]. split; [lia|].
    split; [|split; [tauto|tauto]].
    intros ->. cbn in Hc. apply Z.ltb_ge in Hc. lia.
Qed.

Lemma ask_until_valid_inv qn st m v st' :
  ask_until_valid qn st = (Return (m, v), st') ->
  m = max_attempts (response_settings (self st))
  /\ same_config (self st) (self st')
  /\ attempt_count (self st) + 1 <= attempt_count (self st')
  /\ (attempt_count (self st) + 1 <= m ->
      attempt_count (self st') <= m
      /\ (v = false -> attempt_count (self st') = m))
  /\ (exists a, answer (self st') = Some a).
Proof.
  unfold ask_until_valid. intros H.
  apply bind_Return_inv in H as (u & s0 & Hh & H).
  apply print_question_header_frame in Hh as (_ & Hc0 & Hn0 & _).
  apply attempt_inv in H as [(w & s1 & Hk & Hc1 & Hn1 & Ha & _)|(e & He & _)];
    [|discriminate].
  unfold bind at 1, get_self in Hk.
  apply bind_Return_inv in Hk as (w' & s2 & Hw & Hr).
  unfold ret in Hr. inversion Hr; subst m w' s2; clear Hr.
  pose proof (same_config_trans Hc0 Hc1) as Hc.
  assert (Hrs : response_settings (self s1) = response_settings (self st))
    by apply Hc.
  unfold while_retry, bind, get_self in Hw.
  split; [now rewrite Hrs|].
  destruct (Z_le_gt_dec (attempt_count (self s1))
              (max_attempts (response_settings (self s1)))) as [Hle|Hgt].
  - apply retry_loop_inv in Hw as (Hc2 & Hn2 & Hx & _ & Ha2);
      [|apply le_n|exact Hle].
    split; [eapply same_config_trans; eassumption|].
    split; [lia|]. split; [intros _; split; [apply Hn2|exact Hx]|].
    apply Ha2. destruct Ha as (line & Hl & _). eauto.
  - replace (Z.to_nat _) with O in Hw by lia. cbn in Hw. unfold ret in Hw.
    inversion Hw; subst w st'; clear Hw.
    split; [exact Hc|]. split; [lia|]. split; [intros Hm; exfalso; lia|].
    destruct Ha as (line & Hl & _). eauto.
Qed.

Lemma report_outcome_frame m v st r st' :
  report_outcome m v st = (r, st') -> self st' = self st /\ stdin st' = stdin st.
Proof.
  destruct st as [q lines out]. unfold report_outcome, is_correct_answer.
  intros H. unfold_methods. run_cases; cbn; split; reflexivity.
Qed.

Lemma handle_question_and_answer_inv qn st st' :
  handle_question_and_answer qn st = (Return tt, st') ->
  same_config (self st) (self st')
  /\ attempt_count (self st) + 1 <= attempt_count (self st')
  /\ (exists a, answer (self st') = Some a).
Proof.
  unfold handle_question_and_answer. intros H.
  apply bind_Return_inv in H as ([m v] & s1 & Ha & Hr).
  apply ask_until_valid_inv in Ha as (_ & Hc & Hn & _ & Hans).
  apply report_outcome_frame in Hr as (Hs & _). rewrite Hs.
  repeat split; try apply Hc; assumption.
Qed.

(** C3, as stated, fails: the first bank question (default settings,
    [max_attempts = 1]) accepts a non-empty answer on its only attempt, so the
    loop ends by acceptance with [attempt_count == max_attempts]. *)
Lemma accepted_on_the_last_attempt :
  exists q st',
    new_QuizQuestion "What does CPU stand for?" "Central Processing Unit"
      "title" ResponseSettings_default = Return q
    /\ ask_until_valid (Some 1) (on q ["central processing unit"])
       = (Return (1, true), st')
    /\ attempt_count (self st') = max_attempts (response_settings (self st'))
    /\ handle_question_and_answer (Some 1) (on q ["central processing unit"])
       = (Return tt,
          mkState (self st') []
            [Print ""; Prompt ("1. What does CPU stand for?" ++ Str.newline ++ "> ");
             Print "Correct!"]).
Proof.
  eexists. eexists. split; [vm_compute; reflexivity|].
  split; [vm_compute; reflexivity|].
  split; vm_compute; reflexivity.
Qed.

(** C3 (amended): when the ask/validate/retry loop of a question that starts
    with [attempt_count = 0] and has [max_attempts >= 1] terminates, then
    [1 <= attempt_count <= max_attempts], and if it terminated by exhaustion
    (the last validation failed) then [attempt_count == max_attempts]. *)
Theorem attempts_bounded_when_loop_ends
    (q : QuizQuestion) (qn : option Z) (lines : list string) (out : list Out)
    (m : Z) (v : bool) (st' : State QuizQuestion) :
  attempt_count q = 0 ->
  1 <= max_attempts (response_settings q) ->
  ask_until_valid qn (mkState q lines out) = (Return (m, v), st') ->
  m = max_attempts (response_settings (self st'))
  /\ 1 <= attempt_count (self st') <= max_attempts (response_settings (self st'))
  /\ (v = false ->
      attempt_count (self st') = max_attempts (response_settings (self st'))).
Proof.
  intros H0 Hmax H.
  apply ask_until_valid_inv in H as (Hm & Hc & Hn & Hb & _).
  cbn [self] in *.
  assert (Hrs : response_settings (self st') = response_settings q) by apply Hc.
  rewrite Hrs, <- Hm. rewrite <- Hm in Hmax.
  destruct Hb as [Hle Hx]; [lia|].
  split; [reflexivity|]. split; [lia|exact Hx].
Qed.

Lemma attempts_bounded_when_loop_ends_witness :
  let st' := snd (ask_until_valid (Some 4) (on which_answer_is_A ["c"; "d"; "e"])) in
  ask_until_valid (Some 4) (on which_answer_is_A ["c"; "d"; "e"])
  = (Return (3, false), st')
  /\ 3 = max_attempts (response_settings (self st'))
  /\ 1 <= attempt_count (self st') <= max_attempts (response_settings (self st'))
  /\ (false = false ->
      attempt_count (self st') = max_attempts (response_settings (self st'))).
Proof.
  intros st'.
  assert (Hrun : ask_until_valid (Some 4) (on which_answer_is_A ["c"; "d"; "e"])
                 = (Return (3, false), st')) by (vm_compute; reflexivity).
  split; [exact Hrun|].
  apply (@attempts_bounded_when_loop_ends which_answer_is_A (Some 4)
           ["c"; "d"; "e"] [] 3 false st').
  - reflexivity.
  - vm_compute. discriminate.
  - exact Hrun.
Defined.

(** ** Empty responses *)

Lemma bind_run_Return {S A B} (m : M S A) (k : A -> M S B) st a st1 :
  m st = (Return a, st1) -> bind m k st = k a st1.
Proof. unfold bind. now intros ->. Qed.

Lemma bind_run_Raise {S A B} (m : M S A) (k : A -> M S B) st e st1 :
  m st = (Raise e, st1) -> bind m k st = (Raise e, st1).
Proof. unfold bind. now intros ->. Qed.

Lemma print_question_header_run qn st :
  exists s0,
    print_question_header qn st = (Return tt, s0)
    /\ same_config (self st) (self s0)
    /\ attempt_count (self s0) = attempt_count (self st)
    /\ stdin s0 = stdin st.
Proof.
  destruct (print_question_header qn st) as [r s0] eqn:E.
  apply print_question_header_frame in E as (-> & Hc & Hn & _ & Hi).
  exists s0. repeat split; try apply Hc; assumption.
Qed.

Ltac unfold_attempt :=
  cbv [prompt_question QuizQuestion_prompt_question MultipleChoice_prompt_question
       validate_response QuizQuestion_validate_response
       MultipleChoice_validate_response valid_possible_answers iter_options
       increment_attempts attempt_count base_prompt choice_prompt
       transform normalized_keys negb
       with_question with_answer with_attempt_count options_truthy answer_truthy
       bind ret raise lift get_self update_self emit print input
       self stdin stdout cls question correct_answer answer response_settings
       _attempt_count options transformation transformation_name].

(** One attempt of a base question on an empty line. *)
Lemma base_attempt_on_empty_line {B} (k : bool -> Method B) s rest :
  cls (self s) = Base ->
  Str.truthy (correct_answer (self s)) = true ->
  stdin s = "" :: rest ->
  (prompt_question ;; increment_attempts ;; v <- validate_response ;; k v) s
  = (Raise (ValueError ("No answer provided for " ++ question (self s))),
     mkState (with_attempt_count (attempt_count (self s) + 1)
                (with_answer (Some "") (self s)))
       rest (stdout s ++ [Prompt (base_prompt (self s))])).
Proof.
  destruct s as [[c text correct a tn t rs n opts] lines out].
  cbn [self cls correct_answer stdin]. intros -> Hca ->.
  unfold_attempt. rewrite Hca. reflexivity.
Qed.

(** C1, as stated, fails: a base question with [max_attempts = 2] that is
    given two empty lines raises [ValueError] out of
    [handle_question_and_answer] at the first one; [attempt_count] is 1, the
    second line is never read and no exhaustion notice is printed. *)
Lemma empty_response_escapes_as_exception :
  let q := mkQuizQuestion Base "What does CPU stand for?" "Central Processing Unit"
             None "title" str_title (set_max_attempts 2 ResponseSettings_default)
             0 None in
  new_QuizQuestion "What does CPU stand for?" "Central Processing Unit" "title"
    (set_max_attempts 2 ResponseSettings_default) = Return q
  /\ handle_question_and_answer None (on q [""; ""])
     = (Raise (ValueError "No answer provided for What does CPU stand for?"),
        mkState (with_attempt_count 1 (with_answer (Some "") q)) [""]
          [Print ""; Prompt ("What does CPU stand for?" ++ Str.newline ++ "> ")]).
Proof. split; vm_compute; reflexivity. Qed.

(** C1 (amended): for every base question (with a non-empty correct answer),
    an empty user response consumes one attempt and then raises
    [ValueError("No answer provided for ...")] out of
    [handle_question_and_answer]: there is no retry and the lines after the
    empty one stay unread, whatever [max_attempts] is. *)
Theorem empty_response_raises_after_one_attempt
    (q : QuizQuestion) (qn : option Z) (rest : list string) (out : list Out) :
  cls q = Base ->
  Str.truthy (correct_answer q) = true ->
  exists q' out',
    handle_question_and_answer qn (mkState q ("" :: rest) out)
    = (Raise (ValueError ("No answer provided for " ++ question q')),
       mkState q' rest out')
    /\ attempt_count q' = attempt_count q + 1
    /\ answer q' = Some ""
    /\ same_config q q'.
Proof.
  intros Hcls Hca.
  destruct (print_question_header_run qn (mkState q ("" :: rest) out))
    as (s0 & Hh & Hc & Hn & Hi). cbn [self stdin] in *.
  assert (Hcls0 : cls (self s0) = Base) by (rewrite <- Hcls; apply Hc).
  assert (Hca0 : Str.truthy (correct_answer (self s0)) = true).
  { destruct Hc as (_ & -> & _). exact Hca. }
  exists (with_attempt_count (attempt_count (self s0) + 1)
            (with_answer (Some "") (self s0))),
         (stdout s0 ++ [Prompt (base_prompt (self s0))])%list.
  split.
  - unfold handle_question_and_answer, ask_until_valid.
    apply bind_run_Raise. erewrite bind_run_Return by exact Hh.
    apply base_attempt_on_empty_line; assumption.
  - cbn. unfold attempt_count in *. cbn. split; [lia|]. split; [reflexivity|].
    repeat split; apply Hc.
Qed.

Lemma empty_response_raises_after_one_attempt_witness :
  let q := mkQuizQuestion Base "What does RAM stand for?" "Random Access Memory"
             None "title" str_title (set_max_attempts 2 ResponseSettings_default)
             0 None in
  cls q = Base /\ Str.truthy (correct_answer q) = true
  /\ exists q' out',
      handle_question_and_answer (Some 2) (mkState q [""; ""] [])
      = (Raise (ValueError ("No answer provided for " ++ question q')),
         mkState q' [""] out')
      /\ attempt_count q' = attempt_count q + 1
      /\ answer q' = Some ""
      /\ same_config q q'.
Proof.
  intros q. split; [reflexivity|]. split; [reflexivity|].
  apply (@empty_response_raises_after_one_attempt q (Some 2) [""] []);
    reflexivity.
Defined.

(** ** Multiple-choice questions *)

(** C10: on a [MultipleChoiceQuizQuestion] whose [options] is [None],
    [prompt_question] first prompts as the base class does (and stores the
    line read), then iterates [self.options] all the same and raises
    [TypeError]; it never returns. *)
Theorem prompt_without_options_raises
    (q : QuizQuestion) (lines : list string) (out : list Out) :
  cls q = MultipleChoice ->
  options q = None ->
  match lines with
  | line :: rest =>
      prompt_question (mkState q lines out)
      = (Raise TypeError,
         mkState (with_answer (Some line) q) rest (out ++ [Prompt (base_prompt q)]))
  | [] =>
      prompt_question (mkState q lines out)
      = (Raise EOFError, mkState q [] (out ++ [Prompt (base_prompt q)]))
  end.
Proof.
  destruct q as [c text correct a tn t rs n opts]. cbn [cls options].
  intros -> ->. destruct lines as [|line rest]; reflexivity.
Qed.

Lemma prompt_without_options_raises_witness :
  let q := mkQuizQuestion MultipleChoice "Do you want to play?" "Y" None "title"
             str_title (set_max_attempts 3 startup_response_settings) 0 None in
  cls q = MultipleChoice /\ options q = None
  /\ prompt_question (mkState q ["y"; "n"] [])
     = (Raise TypeError,
        mkState (with_answer (Some "y") q) ["n"] [Prompt (base_prompt q)]).
Proof.
  intros q. split; [reflexivity|]. split; [reflexivity|].
  apply (@prompt_without_options_raises q ["y"; "n"] []); reflexivity.
Defined.

(** C6: the bank's choice question (options A and B, correct answer ["A"],
    mode [title]) on the input ["a"]: the answer normalizes to the key
    ["A"], validation passes on attempt 1 and the answer is correct; the
    correctness check applies the question's one transformation to both
    the given and the correct answer. *)
Theorem choice_answer_a_is_accepted_and_correct :
  new_MultipleChoiceQuizQuestion "Which answer is A?" "A" "title"
    ResponseSettings_default (Some [("A", "Answer A"); ("B", "Answer B")])
  = Return which_answer_is_A
  /\ transform which_answer_is_A "a" = "A"
  /\ (let run := ask_until_valid None (on which_answer_is_A ["a"]) in
      fst run = Return (3, true)
      /\ attempt_count (self (snd run)) = 1
      /\ answer (self (snd run)) = Some "a"
      /\ is_correct_answer (self (snd run)) = Return true)
  /\ handle_question_and_answer None (on which_answer_is_A ["a"])
     = (Return tt,
        mkState (with_attempt_count 1 (with_answer (Some "a") which_answer_is_A))
          [] [Print ""; Prompt (choice_prompt which_answer_is_A
                                  [("A", "Answer A"); ("B", "Answer B")]);
              Print "Correct!"])
  /\ (forall q given,
        is_correct_answer (with_answer (Some given) q)
        = Return (String.eqb (apply_transformation (transformation q) given)
                    (apply_transformation (transformation q) (correct_answer q)))).
Proof.
  split; [vm_compute; reflexivity|]. split; [vm_compute; reflexivity|].
  split; [cbv zeta; repeat split; vm_compute; reflexivity|].
  split; [vm_compute; reflexivity|]. reflexivity.
Qed.

(** One attempt of a multiple-choice question that has options, on a
    non-empty line. *)
Lemma choice_attempt {B} (k : bool -> Method B) s o items line rest :
  cls (self s) = MultipleChoice ->
  options (self s) = Some (o :: items) ->
  Str.truthy (correct_answer (self s)) = true ->
  stdin s = line :: rest ->
  Str.truthy line = true ->
  let q1 := with_attempt_count (attempt_count (self s) + 1)
              (with_answer (Some line) (self s)) in
  let keys := normalized_keys (self s) (o :: items) in
  let out1 := (stdout s ++ [Prompt (choice_prompt (self s) (o :: items))])%list in
  (prompt_question ;; increment_attempts ;; v <- validate_response ;; k v) s
  = if negb (Str.mem (correct_answer (self s)) keys) then
      (Raise (ValueError "Correct answer is not available"), mkState q1 rest out1)
    else if negb (Str.mem (transform (self s) line) keys) then
      k false
        (mkState q1 rest
           (out1 ++ [PrintInvalid line keys
                       (max_attempts (response_settings (self s))
                        - (attempt_count (self s) + 1))]))
    else k true (mkState q1 rest out1).
Proof.
  destruct s as [[c text correct a tn t rs n opts] lines out].
  cbn [self cls correct_answer stdin options]. intros -> -> Hca -> Hl.
  cbv zeta. unfold_attempt. rewrite Hca, Hl.
  destruct (Str.mem correct _); [|reflexivity].
  destruct (Str.mem (apply_transformation t line) _); reflexivity.
Qed.

(** Validation of a multiple-choice question that has an options list and
    holds a non-empty answer. *)
Lemma choice_validate s items a :
  cls (self s) = MultipleChoice ->
  options (self s) = Some items ->
  Str.truthy (correct_answer (self s)) = true ->
  answer (self s) = Some a ->
  Str.truthy a = true ->
  let keys := normalized_keys (self s) items in
  validate_response s
  = if negb (Str.mem (correct_answer (self s)) keys) then
      (Raise (ValueError "Correct answer is not available"), s)
    else if negb (Str.mem (transform (self s) a) keys) then
      (Return false,
       mkState (self s) (stdin s)
         (stdout s ++ [PrintInvalid a keys
                         (max_attempts (response_settings (self s))
                          - attempt_count (self s))]))
    else (Return true, s).
Proof.
  destruct s as [[c text correct a0 tn t rs n opts] lines out].
  cbn [self cls correct_answer stdin options answer]. intros -> -> Hca -> Ha.
  cbv zeta. destruct items as [|o items]; unfold_attempt;
    repeat (first [rewrite Hca|rewrite Ha]; cbv beta iota);
    [reflexivity|].
  destruct (Str.mem correct _); [|reflexivity].
  destruct (Str.mem (apply_transformation t a) _); reflexivity.
Qed.

(** C7, as stated, fails: the empty response, normalized, is not among the
    normalized keys ["A"] and ["B"], yet validation raises [ValueError]
    instead of returning invalid, and the exception leaves
    [handle_question_and_answer] with the next line unread. *)
Lemma empty_choice_response_raises :
  let q := with_attempt_count 1 (with_answer (Some "") which_answer_is_A) in
  Str.mem (transform q "") (normalized_keys q [("A", "Answer A"); ("B", "Answer B")])
  = false
  /\ validate_response (on q ["A"])
     = (Raise (ValueError "No answer provided for Which answer is A?"), on q ["A"])
  /\ handle_question_and_answer None (on which_answer_is_A [""; "A"])
     = (Raise (ValueError "No answer provided for Which answer is A?"),
        mkState q ["A"]
          [Print ""; Prompt (choice_prompt which_answer_is_A
                               [("A", "Answer A"); ("B", "Answer B")])]).
Proof. cbv zeta. repeat split; vm_compute; reflexivity. Qed.

(** C7 (amended): for every multiple-choice question that is well authored
    (an options list, a non-empty correct answer that is among the normalized
    option keys), when a captured non-empty response, normalized, is not
    among the normalized option keys, validation returns invalid without
    raising and prints the feedback line with the response, the normalized
    keys and [max_attempts - attempt_count]; while attempts remain the loop
    then prompts again. *)
Theorem invalid_choice_takes_retry_path
    (q : QuizQuestion) (items : list (string * string)) (a : string)
    (lines : list string) (out : list Out) :
  cls q = MultipleChoice ->
  options q = Some items ->
  Str.truthy (correct_answer q) = true ->
  answer q = Some a ->
  Str.truthy a = true ->
  Str.mem (correct_answer q) (normalized_keys q items) = true ->
  Str.mem (transform q a) (normalized_keys q items) = false ->
  let feedback :=
    PrintInvalid a (normalized_keys q items)
      (max_attempts (response_settings q) - attempt_count q) in
  validate_response (mkState q lines out)
  = (Return false, mkState q lines (out ++ [feedback]))
  /\ (attempt_count q < max_attempts (response_settings q) ->
      while_retry (max_attempts (response_settings q)) false
        (mkState q lines (out ++ [feedback]))
      = (prompt_question ;; increment_attempts ;;
         v <- validate_response ;;
         while_retry (max_attempts (response_settings q)) v)
          (mkState q lines (out ++ [feedback]))).
Proof.
  intros Hcls Hopts Hca Hans Ha Hin Hout. cbv zeta. split.
  - rewrite (@choice_validate (mkState q lines out) items a Hcls Hopts Hca Hans Ha).
    cbv zeta. cbn [self stdin stdout]. now rewrite Hin, Hout.
  - intros Hlt. rewrite while_retry_unfold. cbn [self negb andb].
    apply Z.ltb_lt in Hlt. now rewrite Hlt.
Qed.

Lemma invalid_choice_takes_retry_path_witness :
  let q := with_attempt_count 1 (with_answer (Some "C") which_answer_is_A) in
  let items := [("A", "Answer A"); ("B", "Answer B")] in
  validate_response (mkState q ["b"] [])
  = (Return false, mkState q ["b"] [PrintInvalid "C" ["A"; "B"] 2])
  /\ (attempt_count q < max_attempts (response_settings q) ->
      while_retry 3 false (mkState q ["b"] [PrintInvalid "C" ["A"; "B"] 2])
      = (prompt_question ;; increment_attempts ;;
         v <- validate_response ;; while_retry 3 v)
          (mkState q ["b"] [PrintInvalid "C" ["A"; "B"] 2])).
Proof.
  intros q items.
  apply (@invalid_choice_takes_retry_path q items "C" ["b"] []);
    vm_compute; reflexivity.
Defined.

(** The question of the claim's example: correct answer ["a"], option keys
    ["A"] and ["B"], mode [title]. *)
Example lowercase_correct_answer_is_rejected :
  let q := mkQuizQuestion MultipleChoice "Which answer is A?" "a" None "title"
             str_title (set_max_attempts 3 ResponseSettings_default) 0
             (Some [("A", "Answer A"); ("B", "Answer B")]) in
  new_MultipleChoiceQuizQuestion "Which answer is A?" "a" "title"
    ResponseSettings_default (Some [("A", "Answer A"); ("B", "Answer B")])
  = Return q
  /\ Str.mem (transform q (correct_answer q))
       (normalized_keys q [("A", "Answer A"); ("B", "Answer B")]) = true
  /\ Str.mem (correct_answer q)
       (normalized_keys q [("A", "Answer A"); ("B", "Answer B")]) = false
  /\ fst (handle_question_and_answer None (on q ["A"]))
     = Raise (ValueError "Correct answer is not available").
Proof. cbv zeta. repeat split; vm_compute; reflexivity. Qed.

(** C4, as stated, fails.  With correct answer ["C"] and option keys ["A"]
    and ["B"]: the error is raised only after the attempt was counted and
    the user's line read; and on an empty line the run ends with the
    "No answer provided" error, not with the configuration one.  With the
    claim's own example, correct answer ["a"] and key ["A"] under [title],
    validation raises although the normalized forms match. *)
Lemma correct_answer_check_counterexample :
  let items := [("A", "Answer A"); ("B", "Answer B")] in
  let qC := mkQuizQuestion MultipleChoice "Which answer is A?" "C" None "title"
              str_title (set_max_attempts 3 ResponseSettings_default) 0
              (Some items) in
  let qa := mkQuizQuestion MultipleChoice "Which answer is A?" "a" None "title"
              str_title (set_max_attempts 3 ResponseSettings_default) 0
              (Some items) in
  (Str.mem (transform qC (correct_answer qC)) (normalized_keys qC items) = false
   /\ handle_question_and_answer None (on qC ["A"; "B"])
      = (Raise (ValueError "Correct answer is not available"),
         mkState (with_attempt_count 1 (with_answer (Some "A") qC)) ["B"]
           [Print ""; Prompt (choice_prompt qC items)])
   /\ handle_question_and_answer None (on qC [""; "B"])
      = (Raise (ValueError "No answer provided for Which answer is A?"),
         mkState (with_attempt_count 1 (with_answer (Some "") qC)) ["B"]
           [Print ""; Prompt (choice_prompt qC items)]))
  /\ (Str.mem (transform qa (correct_answer qa)) (normalized_keys qa items) = true
      /\ validate_response (on (with_attempt_count 1 (with_answer (Some "A") qa)) [])
         = (Raise (ValueError "Correct answer is not available"),
            on (with_attempt_count 1 (with_answer (Some "A") qa)) [])).
Proof. cbv zeta. repeat split; vm_compute; reflexivity. Qed.

(** C4 (amended): for every multiple-choice question with an options list,
    a non-empty correct answer that is already in normalized form, and a
    non-empty captured answer, validation raises
    [ValueError("Correct answer is not available")] exactly when the
    normalized correct answer is not among the normalized option keys, and
    otherwise returns without raising.  The error is fatal: it leaves
    [handle_question_and_answer] at the first attempt with no retry, after
    that attempt was counted ([attempt_count] is one more than before) and
    its line read. *)
Theorem correct_answer_outside_options_is_fatal
    (q : QuizQuestion) (items : list (string * string)) :
  cls q = MultipleChoice ->
  options q = Some items ->
  Str.truthy (correct_answer q) = true ->
  transform q (correct_answer q) = correct_answer q ->
  (forall a lines out,
      answer q = Some a -> Str.truthy a = true ->
      if Str.mem (transform q (correct_answer q)) (normalized_keys q items)
      then exists valid st',
          validate_response (mkState q lines out) = (Return valid, st')
      else validate_response (mkState q lines out)
           = (Raise (ValueError "Correct answer is not available"),
              mkState q lines out))
  /\ (forall qn line rest out,
        Str.truthy line = true -> items <> [] ->
        Str.mem (transform q (correct_answer q)) (normalized_keys q items) = false ->
        exists q' out',
          handle_question_and_answer qn (mkState q (line :: rest) out)
          = (Raise (ValueError "Correct answer is not available"),
             mkState q' rest out')
          /\ attempt_count q' = attempt_count q + 1
          /\ answer q' = Some line).
Proof.
  intros Hcls Hopts Hca Hnorm. rewrite Hnorm. split.
  - intros a lines out Hans Ha.
    rewrite (@choice_validate (mkState q lines out) items a Hcls Hopts Hca Hans Ha).
    cbv zeta. cbn [self stdin stdout].
    destruct (Str.mem (correct_answer q) (normalized_keys q items));
      cbn [negb]; [|reflexivity].
    destruct (negb (Str.mem (transform q a) (normalized_keys q items))); eauto.
  - intros qn line rest out Hl Hne Hmem.
    destruct items as [|o items]; [congruence|].
    destruct (print_question_header_run qn (mkState q (line :: rest) out))
      as (s0 & Hh & Hc & Hn & Hi). cbn [self stdin] in *.
    destruct Hc as (Hc1 & Hc2 & Hc3 & Hc4 & Hc5).
    assert (Hkeys : normalized_keys (self s0) (o :: items)
                    = normalized_keys q (o :: items)).
    { unfold normalized_keys, transform. now rewrite Hc3. }
    eexists. eexists. split.
    + unfold handle_question_and_answer, ask_until_valid.
      apply bind_run_Raise. erewrite bind_run_Return by exact Hh.
      rewrite (@choice_attempt _ _ s0 o items line rest);
        try congruence.
      cbv zeta. rewrite Hkeys, Hc2, Hmem. cbn [negb]. reflexivity.
    + cbn. unfold attempt_count in *. split; [lia|reflexivity].
Qed.

Lemma correct_answer_outside_options_is_fatal_witness :
  let items := [("A", "Answer A"); ("B", "Answer B")] in
  let qC := mkQuizQuestion MultipleChoice "Which answer is A?" "C" (Some "A")
              "title" str_title (set_max_attempts 3 ResponseSettings_default) 1
              (Some items) in
  validate_response (mkState qC ["B"] [])
  = (Raise (ValueError "Correct answer is not available"), mkState qC ["B"] [])
  /\ exists q' out',
      handle_question_and_answer None (mkState qC ["A"; "B"] [])
      = (Raise (ValueError "Correct answer is not available"),
         mkState q' ["B"] out')
      /\ attempt_count q' = attempt_count qC + 1
      /\ answer q' = Some "A".
Proof.
  intros items qC.
  destruct (@correct_answer_outside_options_is_fatal qC items
              eq_refl eq_refl eq_refl eq_refl) as [Hv Hh].
  split.
  - exact (Hv "A" ["B"] [] eq_refl eq_refl).
  - apply (Hh None "A" ["B"] []); [reflexivity|discriminate|reflexivity].
Defined.

(** ** The startup gate *)

Lemma startup_question_eq st :
  startup_question st
  = match handle_question_and_answer None
            (mkState gate_question (stdin st)
               (stdout st ++ [Print "Welcome to my computer quiz!"])) with
    | (Return _, s) => (Return (self s), mkState (self st) (stdin s) (stdout s))
    | (Raise e, s) => (Raise e, mkState (self st) (stdin s) (stdout s))
    end.
Proof.
  destruct st as [quiz lines out].
  unfold startup_question.
  cbv [bind print emit lift ret call self stdin stdout snd].
  change (new_MultipleChoiceQuizQuestion "Do you want to play?" "Y" "title"
            startup_response_settings None)
    with (Return (mkQuizQuestion MultipleChoice "Do you want to play?" "Y" None
                    "title" str_title
                    (set_max_attempts 3 startup_response_settings) 0 None)).
  cbv [add_option update_self self stdin stdout with_options options fst snd app].
  change (mkQuizQuestion MultipleChoice "Do you want to play?" "Y" None "title"
            str_title (set_max_attempts 3 startup_response_settings) 0
            (Some [("Y", "Yes"); ("N", "No")])) with gate_question.
  destruct (handle_question_and_answer None _) as [[[]|e] s]; reflexivity.
Qed.

(** C8: [startup] returns true only when the answer the gate question ended
    with normalizes to ["Y"], the key of the "Yes" option; and when the gate
    is answered ["N"], [main] ends right after the gate's goodbye line:
    whatever the two methods behind the gate would do, no question is asked,
    no further line is read and no score line is printed. *)
Theorem startup_gate_opens_only_on_yes :
  (forall st st',
      startup st = (Return true, st') ->
      exists gate a,
        startup_question st = (Return gate, st')
        /\ options gate = Some [("Y", "Yes"); ("N", "No")]
        /\ answer gate = Some a
        /\ transform gate a = fst ("Y", "Yes"))
  /\ (forall (run report : Quiz unit) (rest : list string),
        main_with run report (mkState (mkSimpleQuiz 0) ("N" :: rest) [])
        = (Return tt,
           mkState (mkSimpleQuiz 0) rest
             [Print "Welcome to my computer quiz!"; Print "";
              Prompt (choice_prompt gate_question [("Y", "Yes"); ("N", "No")]);
              Print "Another time then! Goodbye :)"]))
  /\ (forall rest : list string,
        main ("N" :: rest)
        = (Return tt,
           mkState (mkSimpleQuiz 0) rest
             [Print "Welcome to my computer quiz!"; Print "";
              Prompt (choice_prompt gate_question [("Y", "Yes"); ("N", "No")]);
              Print "Another time then! Goodbye :)"])).
Proof.
  assert (Hno : forall rest,
             startup (mkState (mkSimpleQuiz 0) ("N" :: rest) [])
             = (Return false,
                mkState (mkSimpleQuiz 0) rest
                  [Print "Welcome to my computer quiz!"; Print "";
                   Prompt (choice_prompt gate_question [("Y", "Yes"); ("N", "No")]);
                   Print "Another time then! Goodbye :)"]))
    by (intros rest; vm_compute; reflexivity).
  split; [|split].
  - intros st st' H. unfold startup in H.
    apply bind_Return_inv in H as (gate & s1 & Hq & Hl).
    unfold lift in Hl. inversion Hl as [[Hcorrect Hs]]. subst s1. clear Hl.
    exists gate. pose proof Hq as Hq'. rewrite startup_question_eq in Hq'.
    destruct (handle_question_and_answer None _) as [[[]|e] s] eqn:Hh;
      [|discriminate].
    inversion Hq'; subst gate st'; clear Hq'.
    apply handle_question_and_answer_inv in Hh as (Hc & _ & (a & Ha)).
    cbn [self] in Hc. destruct Hc as (_ & Hca & Ht & _ & Hopts).
    exists a. split; [exact Hq|]. split; [exact Hopts|]. split; [exact Ha|].
    unfold is_correct_answer in Hcorrect. rewrite Ha in Hcorrect.
    inversion Hcorrect as [Heq]. apply String.eqb_eq in Heq.
    rewrite Heq. unfold transform. rewrite Ht, Hca. reflexivity.
  - intros run report rest. unfold main_with.
    erewrite bind_run_Return by apply Hno. reflexivity.
  - intros rest. unfold main, main_with.
    erewrite bind_run_Return by apply Hno. reflexivity.
Qed.

Lemma startup_gate_opens_only_on_yes_witness :
  let st := mkState (mkSimpleQuiz 0) ["q"; "y"; "x"] [] in
  let st' := snd (startup st) in
  startup st = (Return true, st')
  /\ exists gate a,
      startup_question st = (Return gate, st')
      /\ options gate = Some [("Y", "Yes"); ("N", "No")]
      /\ answer gate = Some a
      /\ transform gate a = fst ("Y", "Yes").
Proof.
  intros st st'.
  assert (Hrun : startup st = (Return true, st')) by (vm_compute; reflexivity).
  split; [exact Hrun|].
  exact (proj1 startup_gate_opens_only_on_yes st st' Hrun).
Defined.

(** * Further properties of the code *)

(** ** What the five transformations compare *)

Section MoreCharacters.

Local Ltac by_cases c := destruct c as [[] [] [] [] [] [] [] []]; reflexivity.

Lemma upper_lower_char c : Str.upper_char (Str.lower_char c) = Str.upper_char c.
Proof. by_cases c. Qed.

End MoreCharacters.

Lemma map_map_char f g h s :
  (forall c, f (g c) = h c) -> Str.map f (Str.map g s) = Str.map h s.
Proof.
  intros Hfg. induction s as [|c s IH]; simpl; [reflexivity|].
  now rewrite Hfg, IH.
Qed.

Lemma lower_upper s : Str.lower (Str.upper s) = Str.lower s.
Proof. apply map_map_char, lower_upper_char. Qed.

Lemma upper_lower s : Str.upper (Str.lower s) = Str.upper s.
Proof. apply map_map_char, upper_lower_char. Qed.

Lemma title_from_lower s : forall p,
  Str.title_from p (Str.lower s) = Str.title_from p s.
Proof.
  induction s as [|c s IH]; intros p; [reflexivity|].
  change (Str.lower (String c s)) with (String (Str.lower_char c) (Str.lower s)).
  cbn [Str.title_from].
  rewrite IH, is_cased_lower_char, lower_char_idem, upper_lower_char.
  reflexivity.
Qed.

Lemma lower_title_from s : forall p,
  Str.lower (Str.title_from p s) = Str.lower s.
Proof.
  induction s as [|c s IH]; intros p; [reflexivity|].
  cbn [Str.title_from].
  change (Str.lower (String ?x ?y)) with (String (Str.lower_char x) (Str.lower y)).
  rewrite IH. destruct p; now rewrite ?lower_char_idem, ?lower_upper_char.
Qed.

Lemma capitalize_lower s : Str.capitalize (Str.lower s) = Str.capitalize s.
Proof.
  destruct s as [|c s]; [reflexivity|].
  change (Str.lower (String c s)) with (String (Str.lower_char c) (Str.lower s)).
  cbn [Str.capitalize]. now rewrite upper_lower_char, lower_idem.
Qed.

Lemma lower_capitalize s : Str.lower (Str.capitalize s) = Str.lower s.
Proof.
  destruct s as [|c s]; [reflexivity|].
  cbn [Str.capitalize].
  change (Str.lower (String ?x ?y)) with (String (Str.lower_char x) (Str.lower y)).
  now rewrite lower_upper_char, lower_idem.
Qed.

Lemma transformation_of_lower t x :
  t <> str_swapcase ->
  apply_transformation t (Str.lower x) = apply_transformation t x.
Proof.
  destruct t; intros Ht; cbn [apply_transformation].
  - apply title_from_lower.
  - apply upper_lower.
  - apply lower_idem.
  - apply capitalize_lower.
  - congruence.
Qed.

Lemma lower_of_transformation t x :
  t <> str_swapcase ->
  Str.lower (apply_transformation t x) = Str.lower x.
Proof.
  destruct t; intros Ht; cbn [apply_transformation].
  - apply lower_title_from.
  - apply lower_upper.
  - apply lower_idem.
  - apply lower_capitalize.
  - congruence.
Qed.

(** X1: on ASCII strings, [title], [upper], [lower] and [capitalize] all
    compare text up to letter case: two ASCII strings have the same normal
    form exactly when they are equal once lowered. *)
Theorem normal_forms_agree_iff_equal_up_to_case
    (t : Transformation) (a b : string) :
  Str.is_ascii a = true ->
  Str.is_ascii b = true ->
  t <> str_swapcase ->
  (apply_transformation t a = apply_transformation t b
   <-> Str.lower a = Str.lower b).
Proof.
  intros _ _ Ht. split; intros H.
  - rewrite <- (lower_of_transformation a Ht), <- (lower_of_transformation b Ht).
    now rewrite H.
  - rewrite <- (transformation_of_lower a Ht), <- (transformation_of_lower b Ht).
    now rewrite H.
Qed.

Lemma normal_forms_agree_iff_equal_up_to_case_witness :
  Str.is_ascii "rANDOM access memory" = true
  /\ Str.is_ascii "Random Access Memory" = true
  /\ str_title <> str_swapcase
  /\ (apply_transformation str_title "rANDOM access memory"
      = apply_transformation str_title "Random Access Memory"
      <-> Str.lower "rANDOM access memory" = Str.lower "Random Access Memory").
Proof.
  split; [reflexivity|]. split; [reflexivity|]. split; [discriminate|].
  apply (@normal_forms_agree_iff_equal_up_to_case str_title
           "rANDOM access memory" "Random Access Memory");
    [reflexivity|reflexivity|discriminate].
Defined.

(** X2: on ASCII strings [swapcase] compares text exactly: two ASCII
    strings have the same swapped form only when they are the same string. *)
Theorem swapcase_compares_exactly (a b : string) :
  Str.is_ascii a = true ->
  Str.is_ascii b = true ->
  (apply_transformation str_swapcase a = apply_transformation str_swapcase b
   <-> a = b).
Proof.
  intros _ _.
  split; [|now intros ->]. cbn [apply_transformation]. intros H.
  rewrite <- (swapcase_invol a), <- (swapcase_invol b). now rewrite H.
Qed.

Lemma swapcase_compares_exactly_witness :
  Str.is_ascii "Yes" = true /\ Str.is_ascii "yES" = true
  /\ (apply_transformation str_swapcase "Yes"
      = apply_transformation str_swapcase "yES" <-> "Yes" = "yES").
Proof.
  split; [reflexivity|]. split; [reflexivity|].
  apply (@swapcase_compares_exactly "Yes" "yES"); reflexivity.
Defined.

(** X3: the verdict of [is_correct_answer] when the captured answer and the
    correct answer are ASCII strings: in mode [swapcase] the answer must be
    the correct answer character for character; in each of the other four
    modes it must equal it up to letter case, so on ASCII text these four
    modes always give the same verdict. *)
Theorem is_correct_answer_verdict (q : QuizQuestion) (given : string) :
  Str.is_ascii given = true ->
  Str.is_ascii (correct_answer q) = true ->
  is_correct_answer (with_answer (Some given) q)
  = Return (match transformation q with
            | str_swapcase => String.eqb given (correct_answer q)
            | _ => String.eqb (Str.lower given) (Str.lower (correct_answer q))
            end).
Proof.
  intros _ _. unfold is_correct_answer, transform. cbn [answer with_answer transformation
    correct_answer]. f_equal.
  assert (Hsw : String.eqb (Str.swapcase given) (Str.swapcase (correct_answer q))
                = String.eqb given (correct_answer q)).
  { destruct (String.eqb_spec given (correct_answer q)) as [->|Hne].
    - apply String.eqb_refl.
    - apply String.eqb_neq. intros H. apply Hne.
      rewrite <- (swapcase_invol given), <- (swapcase_invol (correct_answer q)).
      now rewrite H. }
  assert (Hci : forall t, t <> str_swapcase ->
            String.eqb (apply_transformation t given)
              (apply_transformation t (correct_answer q))
            = String.eqb (Str.lower given) (Str.lower (correct_answer q))).
  { intros t Ht.
    destruct (String.eqb_spec (Str.lower given) (Str.lower (correct_answer q)))
      as [He|Hne].
    - apply String.eqb_eq.
      rewrite <- (transformation_of_lower given Ht),
        <- (transformation_of_lower (correct_answer q) Ht).
      now rewrite He.
    - apply String.eqb_neq. intros H. apply Hne.
      rewrite <- (lower_of_transformation given Ht),
        <- (lower_of_transformation (correct_answer q) Ht).
      now rewrite H. }
  destruct (transformation q); try (apply Hci; discriminate). exact Hsw.
Qed.

Lemma is_correct_answer_verdict_witness :
  Str.is_ascii "b" = true
  /\ Str.is_ascii (correct_answer which_answer_is_A) = true
  /\ is_correct_answer (with_answer (Some "b") which_answer_is_A)
     = Return (String.eqb (Str.lower "b")
                 (Str.lower (correct_answer which_answer_is_A))).
Proof.
  split; [reflexivity|]. split; [reflexivity|].
  apply (@is_correct_answer_verdict which_answer_is_A "b"); reflexivity.
Defined.

(** ** Runs of [handle_question_and_answer] *)

Lemma report_outcome_run m v s a :
  answer (self s) = Some a ->
  report_outcome m v s
  = (Return tt,
     mkState (self s) (stdin s)
       (stdout s
        ++ (if negb v && (attempt_count (self s) =? m)
            then [Print (attempts_notice m)] else [])
        ++ [Print (verdict_line (self s) a)])).
Proof.
  destruct s as [[c text correct a0 tn t rs n opts] lines out].
  cbn [self answer]. intros ->.
  unfold report_outcome, is_correct_answer, verdict_line, attempts_notice.
  cbv [bind get_self lift print emit ret self stdin stdout answer attempt_count
       _attempt_count response_settings].
  destruct (negb v && (n =? m));
    destruct (String.eqb _ _); cbn [app]; rewrite <- ?app_assoc; reflexivity.
Qed.

Lemma while_retry_valid max s : while_retry max true s = (Return true, s).
Proof. rewrite while_retry_unfold. reflexivity. Qed.

(** One attempt of a base question on a non-empty line. *)
Lemma base_attempt {B} (k : bool -> Method B) s line rest :
  cls (self s) = Base ->
  Str.truthy (correct_answer (self s)) = true ->
  stdin s = line :: rest ->
  Str.truthy line = true ->
  (prompt_question ;; increment_attempts ;; v <- validate_response ;; k v) s
  = k true
      (mkState (with_attempt_count (attempt_count (self s) + 1)
                  (with_answer (Some line) (self s)))
         rest (stdout s ++ [Prompt (base_prompt (self s))])).
Proof.
  destruct s as [[c text correct a tn t rs n opts] lines out].
  cbn [self cls correct_answer stdin]. intros -> Hca -> Hl.
  unfold_attempt. rewrite Hca, Hl. reflexivity.
Qed.

(** X4: a base question accepts the first non-empty line whatever it says
    and whatever [max_attempts] is: the run returns after one prompt with
    that line stored, one attempt counted, the lines after it unread, and
    the feedback line chosen by comparing the normalized line with the
    normalized correct answer. *)
Theorem base_question_takes_first_line
    (q : QuizQuestion) (qn : option Z) (line : string) (rest : list string)
    (out : list Out) :
  cls q = Base ->
  Str.truthy (correct_answer q) = true ->
  Str.truthy line = true ->
  let s0 := snd (print_question_header qn (mkState q (line :: rest) out)) in
  handle_question_and_answer qn (mkState q (line :: rest) out)
  = (Return tt,
     mkState (with_attempt_count (attempt_count q + 1)
                (with_answer (Some line) (self s0)))
       rest
       (stdout s0 ++ [Prompt (base_prompt (self s0));
                      Print (verdict_line (self s0) line)])).
Proof.
  intros Hcls Hca Hl s0.
  destruct (print_question_header_run qn (mkState q (line :: rest) out))
    as (s0' & Hh & Hc & Hn & Hi).
  assert (Hs0 : s0 = s0') by (unfold s0; now rewrite Hh). subst s0'.
  cbn [self stdin] in *. destruct Hc as (Hc1 & Hc2 & Hc3 & Hc4 & Hc5).
  unfold handle_question_and_answer, ask_until_valid.
  unfold bind at 1. erewrite bind_run_Return by exact Hh.
  rewrite (@base_attempt _ _ s0 line rest); try congruence.
  unfold bind at 1, get_self. cbn [self].
  unfold bind at 1. rewrite while_retry_valid. unfold ret. cbn [fst snd].
  erewrite report_outcome_run by reflexivity.
  cbn [self stdin stdout negb andb app]. rewrite Hn.
  rewrite <- app_assoc. reflexivity.
Qed.

Lemma base_question_takes_first_line_witness :
  let q := mkQuizQuestion Base "What does GPU stand for?"
             "Graphics Processing Unit" None "title" str_title
             (set_max_attempts 5 ResponseSettings_default) 0 None in
  handle_question_and_answer (Some 3) (mkState q ["gpu"; "next"] [])
  = (Return tt,
     mkState (mkQuizQuestion Base "3. What does GPU stand for?"
                "Graphics Processing Unit" (Some "gpu") "title" str_title
                (set_max_attempts 5 ResponseSettings_default) 1 None)
       ["next"]
       [Print ""; Prompt ("3. What does GPU stand for?" ++ Str.newline ++ "> ");
        Print "Incorrect."]).
Proof.
  intros q.
  exact (@base_question_takes_first_line q (Some 3) "gpu" ["next"] []
           eq_refl eq_refl eq_refl).
Defined.

(** The three statements of one attempt, taken apart. *)
Lemma attempt_split {B} (k : bool -> Method B) s r s' :
  (prompt_question ;; increment_attempts ;; v <- validate_response ;; k v) s
  = (r, s') ->
  (exists v s1,
      (prompt_question ;; increment_attempts ;; validate_response) s
      = (Return v, s1)
      /\ k v s1 = (r, s'))
  \/ (exists e, r = Raise e).
Proof.
  intros H.
  apply bind_inv in H as [([] & s1 & Hp & H)|(e & _ & ->)]; [|right; eauto].
  apply bind_inv in H as [([] & s2 & Hi & H)|(e & _ & ->)]; [|right; eauto].
  apply bind_inv in H as [(v & s3 & Hv & H)|(e & _ & ->)]; [|right; eauto].
  left. exists v, s3. split; [|exact H].
  erewrite bind_run_Return by exact Hp.
  erewrite bind_run_Return by exact Hi. exact Hv.
Qed.

Lemma attempt_returns s v s' :
  (prompt_question ;; increment_attempts ;; validate_response) s = (Return v, s') ->
  exists s1,
    prompt_question s = (Return tt, s1)
    /\ self s' = with_attempt_count (attempt_count (self s1) + 1) (self s1)
    /\ stdin s' = stdin s1.
Proof.
  intros H.
  apply bind_Return_inv in H as ([] & s1 & Hp & H).
  apply bind_Return_inv in H as ([] & s2 & Hi & Hv).
  unfold increment_attempts, update_self in Hi. inversion Hi; subst s2; clear Hi.
  apply validate_response_frame in Hv as (Hs & Hin & _).
  exists s1. split; [exact Hp|]. split; [exact Hs|exact Hin].
Qed.

Section Invariant.

Variable P : QuizQuestion -> list string -> Prop.

Hypothesis attempt_keeps :
  forall s v s',
    (prompt_question ;; increment_attempts ;; validate_response) s
    = (Return v, s') ->
    P (self s) (stdin s) -> P (self s') (stdin s').

Lemma retry_loop_keeps fuel : forall max v s v' s',
  retry_loop fuel max v s = (Return v', s') ->
  P (self s) (stdin s) -> P (self s') (stdin s').
Proof.
  induction fuel as [|fuel IH]; intros max v s v' s' H HP; cbn [retry_loop] in H.
  - unfold ret in H. inversion H; subst; exact HP.
  - unfold bind at 1, get_self in H.
    destruct (negb v && (attempt_count (self s) <? max)).
    + apply attempt_split in H as [(w & s1 & Ha & Hk)|(e & He)]; [|discriminate].
      eapply IH; [exact Hk|]. eapply attempt_keeps; eassumption.
    + unfold ret in H. inversion H; subst; exact HP.
Qed.

(** A property of the question and the unread lines that every attempt
    keeps holds when [handle_question_and_answer] returns, if it held once
    the header was printed. *)
Lemma handle_question_and_answer_keeps qn st st' :
  handle_question_and_answer qn st = (Return tt, st') ->
  P (self (snd (print_question_header qn st))) (stdin st) ->
  P (self st') (stdin st').
Proof.
  unfold handle_question_and_answer, ask_until_valid. intros H HP.
  apply bind_Return_inv in H as ([m v] & s1 & Ha & Hr).
  apply report_outcome_frame in Hr as (Hs & Hin). rewrite Hs, Hin.
  apply bind_Return_inv in Ha as ([] & s0 & Hh & Ha).
  rewrite Hh in HP. cbn [snd] in HP.
  apply print_question_header_frame in Hh as (_ & _ & _ & _ & Hi).
  rewrite <- Hi in HP.
  apply attempt_split in Ha as [(w & s2 & Hb & Hk)|(e & He)]; [|discriminate].
  apply attempt_keeps in Hb; [|exact HP].
  unfold bind at 1, get_self in Hk.
  apply bind_Return_inv in Hk as (w' & s3 & Hw & Hret).
  unfold ret in Hret. inversion Hret; subst; clear Hret.
  unfold while_retry, bind, get_self in Hw.
  eapply retry_loop_keeps; eassumption.
Qed.

End Invariant.

Lemma print_question_header_question qn q lines out :
  question (self (snd (print_question_header qn (mkState q lines out))))
  = match qn with
    | Some n =>
        if (attempt_count q =? 0) && negb (n =? 0)
        then Str.of_Z n ++ ". " ++ question q
        else question q
    | None => question q
    end.
Proof.
  unfold print_question_header.
  cbv [bind get_self update_self print emit ret self stdin stdout].
  destruct (attempt_count q =? 0); [|destruct qn; reflexivity].
  destruct qn as [n|]; [|reflexivity].
  destruct (negb (n =? 0)); reflexivity.
Qed.

(** X5: the question text is numbered at most once.  When
    [handle_question_and_answer] returns, the text is the original one
    prefixed with the number and a dot if the question had no attempt yet
    and the number is neither [None] nor [0], and the original one
    otherwise; retries do not prefix it again. *)
Theorem question_text_is_numbered_once
    (q : QuizQuestion) (qn : option Z) (lines : list string) (out : list Out)
    (st' : State QuizQuestion) :
  handle_question_and_answer qn (mkState q lines out) = (Return tt, st') ->
  question (self st')
  = match qn with
    | Some n =>
        if (attempt_count q =? 0) && negb (n =? 0)
        then Str.of_Z n ++ ". " ++ question q
        else question q
    | None => question q
    end.
Proof.
  intros H. rewrite <- (print_question_header_question qn q lines out).
  apply (@handle_question_and_answer_keeps
           (fun q' _ => question q'
              = question (self (snd (print_question_header qn (mkState q lines out)))))
           ) with (qn := qn) (st := mkState q lines out); [|exact H|reflexivity].
  intros s v s' Hb HP. apply attempt_returns in Hb as (s1 & Hp & Hs & _).
  apply prompt_question_frame in Hp as (_ & _ & Hq).
  rewrite Hs. cbn [question with_attempt_count]. congruence.
Qed.

Lemma question_text_is_numbered_once_witness :
  let run := handle_question_and_answer (Some 4)
               (mkState which_answer_is_A ["c"; "d"; "b"] []) in
  run = (Return tt, snd run)
  /\ question (self (snd run)) = "4. Which answer is A?".
Proof.
  intros run.
  assert (Hrun : run = (Return tt, snd run)) by (vm_compute; reflexivity).
  split; [exact Hrun|].
  exact (@question_text_is_numbered_once which_answer_is_A (Some 4)
           ["c"; "d"; "b"] [] (snd run) Hrun).
Defined.

Lemma prompt_reads_one_line s s' :
  prompts_once (self s) = true ->
  prompt_question s = (Return tt, s') ->
  exists line,
    stdin s = line :: stdin s' /\ self s' = with_answer (Some line) (self s).
Proof.
  destruct s as [[c text correct a tn t rs n opts] lines out].
  unfold prompts_once. cbn [self cls options stdin]. intros Hp H.
  destruct c; [|destruct opts as [[|o items]|]; try discriminate Hp];
    destruct lines as [|line rest]; unfold_methods;
    cbn [options_truthy negb] in H; inversion H; subst;
    exists line; split; reflexivity.
Qed.

(** The lines a returning run has read, for a question that prompts once per
    attempt. *)
Lemma lines_read_by_handle
    (q : QuizQuestion) (qn : option Z) (lines : list string) (out : list Out)
    (st' : State QuizQuestion) :
  prompts_once q = true ->
  handle_question_and_answer qn (mkState q lines out) = (Return tt, st') ->
  exists consumed,
    lines = (consumed ++ stdin st')%list
    /\ consumed <> []
    /\ Z.of_nat (length consumed) = attempt_count (self st') - attempt_count q
    /\ answer (self st') = Some (last consumed "").
Proof.
  intros Hq H.
  pose (P := fun (q' : QuizQuestion) (rest : list string) =>
               prompts_once q' = true
               /\ exists consumed,
                   lines = (consumed ++ rest)%list
                   /\ Z.of_nat (length consumed)
                      = attempt_count q' - attempt_count q
                   /\ (consumed = [] \/ answer q' = Some (last consumed ""))).
  assert (HP : P (self st') (stdin st')).
  { apply (@handle_question_and_answer_keeps P) with (qn := qn)
      (st := mkState q lines out); [|exact H|].
    - intros s v s' Hb (Hpo & consumed & Hl & Hn & Hans).
      apply attempt_returns in Hb as (s1 & Hp & Hs & Hin).
      apply (prompt_reads_one_line _ Hpo) in Hp as (line & Hline & Hs1).
      rewrite Hs, Hin, Hs1. split.
      + unfold prompts_once in *. cbn. exact Hpo.
      + exists (consumed ++ [line])%list. split; [|split].
        * rewrite <- app_assoc. cbn [app]. now rewrite <- Hline.
        * rewrite length_app. cbn [length]. unfold attempt_count in *. cbn. lia.
        * right. cbn. now rewrite last_last.
    - destruct (print_question_header_run qn (mkState q lines out))
        as (s0 & Hh & Hc & Hn & _).
      rewrite Hh. cbn [snd self stdin] in *. split.
      + destruct Hc as (Hc1 & _ & _ & _ & Hc5). unfold prompts_once in *.
        now rewrite Hc1, Hc5.
      + exists []. split; [reflexivity|]. split; [cbn; lia|now left]. }
  destruct HP as (_ & consumed & Hl & Hn & Hans).
  apply handle_question_and_answer_inv in H as (_ & Hcount & _).
  cbn [self] in Hcount.
  assert (Hne : consumed <> []).
  { intros ->. cbn in Hn. lia. }
  exists consumed. split; [exact Hl|]. split; [exact Hne|]. split; [exact Hn|].
  destruct Hans as [->|Hans]; [congruence|exact Hans].
Qed.


(** X6: on a question that prompts once per attempt (a base question or a
    multiple-choice one with a non-empty options list), a run that returns
    has read exactly one line per counted attempt, at least one, from the
    front of the input, and the stored answer is the last line read. *)
Theorem one_line_is_read_per_attempt
    (q : QuizQuestion) (qn : option Z) (lines : list string) (out : list Out)
    (st' : State QuizQuestion) :
  prompts_once q = true ->
  handle_question_and_answer qn (mkState q lines out) = (Return tt, st') ->
  exists consumed,
    lines = (consumed ++ stdin st')%list
    /\ consumed <> []
    /\ Z.of_nat (length consumed) = attempt_count (self st') - attempt_count q
    /\ answer (self st') = Some (last consumed "").
Proof.
  intros Hq H. exact (@lines_read_by_handle q qn lines out st' Hq H).
Qed.

Lemma one_line_is_read_per_attempt_witness :
  let run := handle_question_and_answer (Some 4)
               (mkState which_answer_is_A ["c"; "b"; "a"] []) in
  prompts_once which_answer_is_A = true
  /\ run = (Return tt, snd run)
  /\ exists consumed,
      ["c"; "b"; "a"] = (consumed ++ stdin (snd run))%list
      /\ consumed <> []
      /\ Z.of_nat (length consumed)
         = attempt_count (self (snd run)) - attempt_count which_answer_is_A
      /\ answer (self (snd run)) = Some (last consumed "").
Proof.
  intros run.
  assert (Hrun : run = (Return tt, snd run)) by (vm_compute; reflexivity).
  split; [reflexivity|]. split; [exact Hrun|].
  exact (@one_line_is_read_per_attempt which_answer_is_A (Some 4)
           ["c"; "b"; "a"] [] (snd run) eq_refl Hrun).
Defined.

Lemma prompt_question_eof s :
  stdin s = [] ->
  exists out', prompt_question s = (Raise EOFError, mkState (self s) [] out').
Proof.
  destruct s as [[c text correct a tn t rs n opts] lines out].
  cbn [stdin self]. intros ->.
  destruct c; [|destruct opts as [[|o items]|]]; eexists; unfold_attempt;
    reflexivity.
Qed.

(** X7: at the end of input every question raises [EOFError] out of
    [handle_question_and_answer] from its first prompt; the attempt is not
    counted and the stored answer is left as it was. *)
Theorem end_of_input_raises_EOFError
    (q : QuizQuestion) (qn : option Z) (out : list Out) :
  exists q' out',
    handle_question_and_answer qn (mkState q [] out)
    = (Raise EOFError, mkState q' [] out')
    /\ attempt_count q' = attempt_count q
    /\ answer q' = answer q
    /\ same_config q q'.
Proof.
  destruct (print_question_header qn (mkState q [] out)) as [r s0] eqn:Hh.
  apply print_question_header_frame in Hh as Hf.
  destruct Hf as (-> & Hc & Hn & Ha & Hi). cbn [self stdin] in *.
  destruct (prompt_question_eof s0 Hi) as (out' & Hp).
  exists (self s0), out'. split; [|repeat split; try apply Hc; assumption].
  unfold handle_question_and_answer, ask_until_valid.
  apply bind_run_Raise. erewrite bind_run_Return by exact Hh.
  apply bind_run_Raise. exact Hp.
Qed.

(** One attempt of a question that has an empty correct answer. *)
Lemma attempt_without_correct_answer {B} (k : bool -> Method B) s line rest :
  prompts_once (self s) = true ->
  Str.truthy (correct_answer (self s)) = false ->
  stdin s = line :: rest ->
  exists out',
    (prompt_question ;; increment_attempts ;; v <- validate_response ;; k v) s
    = (Raise (ValueError ("No correct answer provided for " ++ question (self s))),
       mkState (with_attempt_count (attempt_count (self s) + 1)
                  (with_answer (Some line) (self s)))
         rest out').
Proof.
  destruct s as [[c text correct a tn t rs n opts] lines out].
  unfold prompts_once. cbn [self cls correct_answer stdin options].
  intros Hp Hca ->.
  destruct c; [|destruct opts as [[|o items]|]; try discriminate Hp];
    unfold_attempt; rewrite Hca; eexists; reflexivity.
Qed.

(** X8: a question whose correct answer is empty cannot be answered: on any
    line, empty or not, [handle_question_and_answer] raises
    [ValueError("No correct answer provided for ...")] after counting one
    attempt, and reads no further line. *)
Theorem empty_correct_answer_is_fatal
    (q : QuizQuestion) (qn : option Z) (line : string) (rest : list string)
    (out : list Out) :
  prompts_once q = true ->
  Str.truthy (correct_answer q) = false ->
  exists q' out',
    handle_question_and_answer qn (mkState q (line :: rest) out)
    = (Raise (ValueError ("No correct answer provided for " ++ question q')),
       mkState q' rest out')
    /\ attempt_count q' = attempt_count q + 1
    /\ answer q' = Some line.
Proof.
  intros Hpo Hca.
  destruct (print_question_header_run qn (mkState q (line :: rest) out))
    as (s0 & Hh & Hc & Hn & Hi). cbn [self stdin] in *.
  destruct Hc as (Hc1 & Hc2 & _ & _ & Hc5).
  assert (Hpo0 : prompts_once (self s0) = true).
  { unfold prompts_once in *. now rewrite Hc1, Hc5. }
  assert (Hca0 : Str.truthy (correct_answer (self s0)) = false) by congruence.
  destruct (@attempt_without_correct_answer _
              (fun is_valid_response : bool =>
                 q0 <- get_self ;;
                 is_valid_response <-
                   while_retry (max_attempts (response_settings q0))
                     is_valid_response ;;
                 ret (max_attempts (response_settings q0), is_valid_response))
              s0 line rest Hpo0 Hca0 Hi) as (out' & Hb).
  exists (with_attempt_count (attempt_count (self s0) + 1)
            (with_answer (Some line) (self s0))), out'.
  split.
  - unfold handle_question_and_answer, ask_until_valid.
    apply bind_run_Raise. erewrite bind_run_Return by exact Hh. exact Hb.
  - cbn. unfold attempt_count in *. split; [lia|reflexivity].
Qed.

Lemma empty_correct_answer_is_fatal_witness :
  let q := mkQuizQuestion Base "What does CPU stand for?" "" None "title"
             str_title ResponseSettings_default 0 None in
  prompts_once q = true /\ Str.truthy (correct_answer q) = false
  /\ exists q' out',
      handle_question_and_answer None (mkState q ["cpu"; "x"] [])
      = (Raise (ValueError ("No correct answer provided for " ++ question q')),
         mkState q' ["x"] out')
      /\ attempt_count q' = attempt_count q + 1
      /\ answer q' = Some "cpu".
Proof.
  intros q. split; [reflexivity|]. split; [reflexivity|].
  exact (@empty_correct_answer_is_fatal q None "cpu" ["x"] [] eq_refl eq_refl).
Defined.

(** ** Runs of a well-authored multiple-choice question *)

(** The loop on a well-authored question (non-empty options list, non-empty
    correct answer that passes the membership test of [validate_response]):
    it goes through a run of invalid lines, one attempt each, as long as
    attempts remain. *)
Lemma loop_through_invalid_lines max : forall invalids s o items tail,
  cls (self s) = MultipleChoice ->
  options (self s) = Some (o :: items) ->
  Str.truthy (correct_answer (self s)) = true ->
  Str.mem (correct_answer (self s)) (normalized_keys (self s) (o :: items)) = true ->
  Forall (fun l => invalid_line (self s) (o :: items) l = true) invalids ->
  stdin s = (invalids ++ tail)%list ->
  attempt_count (self s) + Z.of_nat (length invalids) <= max ->
  exists s1,
    while_retry max false s = while_retry max false s1
    /\ same_config (self s) (self s1)
    /\ question (self s1) = question (self s)
    /\ attempt_count (self s1) = attempt_count (self s) + Z.of_nat (length invalids)
    /\ stdin s1 = tail
    /\ (invalids = [] -> s1 = s)
    /\ (invalids <> [] -> answer (self s1) = Some (last invalids "")).
Proof.
  induction invalids as [|l ls IH]; intros s o items tail Hcls Hopts Hca Hin Hall Hl Hn.
  - exists s. cbn in *. repeat split; try congruence; lia.
  - inversion Hall as [|? ? Hinv Hall']; subst.
    unfold invalid_line in Hinv. apply andb_true_iff in Hinv as [Ht Hm].
    apply negb_true_iff in Hm.
    cbn [length] in Hn. cbn [app] in Hl.
    assert (Hlt : attempt_count (self s) < max) by (clear -Hn; lia).
    rewrite while_retry_unfold. cbn [negb andb].
    apply Z.ltb_lt in Hlt as Hltb. rewrite Hltb.
    rewrite (@choice_attempt _ (while_retry max) s o items l (ls ++ tail)%list
               Hcls Hopts Hca Hl Ht).
    cbv zeta. rewrite Hin, Hm. cbn [negb].
    match goal with
    | |- context [while_retry max false ?s'] =>
        destruct (IH s' o items tail)
          as (s1 & Hw & Hc & Hq & Hc' & Hi & Hsame & Hlast)
    end; try assumption; try reflexivity.
    { cbn [self]. unfold attempt_count in *. cbn [_attempt_count with_attempt_count].
      clear -Hn. lia. }
    exists s1. split; [exact Hw|]. cbn [self stdin] in *.
    split; [exact Hc|]. split; [exact Hq|].
    split; [cbn [length]; unfold attempt_count in *;
            cbn [_attempt_count with_attempt_count] in Hc'; clear -Hc'; lia|].
    split; [exact Hi|]. split; [discriminate|]. intros _.
    destruct ls as [|l' ls'].
    + rewrite (Hsame eq_refl). reflexivity.
    + rewrite Hlast by discriminate. reflexivity.
Qed.

Lemma same_config_keys q q' items :
  same_config q q' -> normalized_keys q' items = normalized_keys q items.
Proof.
  intros (_ & _ & Ht & _). unfold normalized_keys, transform. now rewrite Ht.
Qed.

Lemma same_config_transform q q' x :
  same_config q q' -> transform q' x = transform q x.
Proof. intros (_ & _ & Ht & _). unfold transform. now rewrite Ht. Qed.

Lemma same_config_verdict q q' a :
  same_config q q' -> verdict_line q' a = verdict_line q a.
Proof.
  intros Hc. unfold verdict_line.
  rewrite !(same_config_transform _ Hc).
  destruct Hc as (_ & -> & _ & -> & _). reflexivity.
Qed.

(** While attempts remain, the first attempt of
    [handle_question_and_answer] and its loop together are the loop started
    on a failed validation. *)
Lemma ask_until_valid_as_loop qn st :
  attempt_count (self st) < max_attempts (response_settings (self st)) ->
  ask_until_valid qn st
  = match while_retry (max_attempts (response_settings (self st))) false
            (snd (print_question_header qn st)) with
    | (Return v, s') =>
        (Return (max_attempts (response_settings (self st)), v), s')
    | (Raise e, s') => (Raise e, s')
    end.
Proof.
  intros Hlt.
  destruct (print_question_header_run qn st) as (s0 & Hh & Hc & Hn & _).
  rewrite Hh. cbn [snd]. unfold ask_until_valid.
  erewrite bind_run_Return by exact Hh.
  rewrite while_retry_unfold. cbn [negb andb].
  rewrite Hn. apply Z.ltb_lt in Hlt. rewrite Hlt.
  assert (Hrs : response_settings (self s0) = response_settings (self st))
    by apply Hc.
  destruct (prompt_question s0) as [[[]|e] s1] eqn:Hp.
  2:{ rewrite !(@bind_run_Raise _ _ _ _ _ _ _ _ Hp). reflexivity. }
  rewrite !(@bind_run_Return _ _ _ _ _ _ _ _ Hp).
  apply prompt_question_frame in Hp as (Hc1 & _ & _).
  set (s2 := mkState (with_attempt_count (attempt_count (self s1) + 1) (self s1))
               (stdin s1) (stdout s1)).
  assert (Hi : increment_attempts s1 = (Return tt, s2)) by reflexivity.
  rewrite !(@bind_run_Return _ _ _ _ _ _ _ _ Hi).
  destruct (validate_response s2) as [[v|e] s3] eqn:Hv.
  2:{ rewrite !(@bind_run_Raise _ _ _ _ _ _ _ _ Hv). reflexivity. }
  rewrite !(@bind_run_Return _ _ _ _ _ _ _ _ Hv).
  apply validate_response_frame in Hv as (Hs & _ & _). cbn [self] in Hs.
  unfold bind at 1, get_self.
  assert (Hrs3 : response_settings (self s3) = response_settings (self st)).
  { rewrite Hs. cbn. rewrite <- Hrs. apply Hc1. }
  rewrite Hrs3. unfold bind, ret.
  destruct (while_retry _ v s3) as [[v'|e] s4]; reflexivity.
Qed.

(** X9: on a well-authored multiple-choice question, when the input starts
    with fewer invalid lines than attempts remain and a valid line follows,
    the run returns on that valid line: it is the stored answer, one
    attempt was counted per line read, the lines after it are unread, and
    the run ends with the feedback line for that answer. *)
Theorem first_valid_line_is_accepted
    (q : QuizQuestion) (o : string * string) (items : list (string * string))
    (qn : option Z) (invalids : list string) (good : string)
    (rest : list string) (out : list Out) :
  cls q = MultipleChoice ->
  options q = Some (o :: items) ->
  Str.truthy (correct_answer q) = true ->
  Str.mem (correct_answer q) (normalized_keys q (o :: items)) = true ->
  Forall (fun l => invalid_line q (o :: items) l = true) invalids ->
  valid_line q (o :: items) good = true ->
  attempt_count q + Z.of_nat (length invalids)
  < max_attempts (response_settings q) ->
  exists st' out',
    handle_question_and_answer qn (mkState q (invalids ++ good :: rest) out)
    = (Return tt, st')
    /\ answer (self st') = Some good
    /\ attempt_count (self st')
       = attempt_count q + Z.of_nat (length invalids) + 1
    /\ stdin st' = rest
    /\ stdout st' = (out' ++ [Print (verdict_line q good)])%list.
Proof.
  intros Hcls Hopts Hca Hin Hall Hgood Hlt.
  set (max := max_attempts (response_settings q)) in *.
  destruct (print_question_header_run qn
              (mkState q (invalids ++ good :: rest) out))
    as (s0 & Hh & Hc & Hn & Hi).
  cbn [self stdin] in *.
  pose proof Hc as (Hc1 & Hc2 & Hc3 & Hc4 & Hc5).
  assert (W1 : cls (self s0) = MultipleChoice) by congruence.
  assert (W2 : options (self s0) = Some (o :: items)) by congruence.
  assert (W3 : Str.truthy (correct_answer (self s0)) = true) by congruence.
  assert (W4 : Str.mem (correct_answer (self s0))
                 (normalized_keys (self s0) (o :: items)) = true).
  { rewrite (same_config_keys _ Hc). congruence. }
  assert (W5 : Forall (fun l => invalid_line (self s0) (o :: items) l = true)
                 invalids).
  { eapply Forall_impl; [|exact Hall]. cbv beta. intros l Hl.
    unfold invalid_line in *.
    now rewrite (same_config_keys _ Hc), (same_config_transform _ Hc). }
  assert (W6 : attempt_count (self s0) + Z.of_nat (length invalids) <= max)
    by (clear -Hn Hlt; lia).
  destruct (@loop_through_invalid_lines max invalids s0 o items (good :: rest)
              W1 W2 W3 W4 W5 Hi W6)
    as (s1 & Hw & Hc' & _ & Hn1 & Hi1 & _ & _).
  pose proof (same_config_trans Hc Hc') as Hq1.
  pose proof Hq1 as (Hd1 & Hd2 & Hd3 & Hd4 & Hd5).
  unfold valid_line in Hgood. apply andb_true_iff in Hgood as [Hgt Hgm].
  assert (Hask : ask_until_valid qn (mkState q (invalids ++ good :: rest) out)
                 = (Return (max, true),
                    mkState (with_attempt_count (attempt_count (self s1) + 1)
                               (with_answer (Some good) (self s1)))
                      rest
                      (stdout s1 ++ [Prompt (choice_prompt (self s1) (o :: items))]))).
  { rewrite ask_until_valid_as_loop by (cbn [self]; clear -Hlt; lia).
    rewrite Hh. cbn [snd self]. fold max. rewrite Hw.
    rewrite while_retry_unfold. cbn [negb andb].
    replace (attempt_count (self s1) <? max) with true
      by (symmetry; apply Z.ltb_lt; clear -Hn Hn1 Hlt; lia).
    rewrite (@choice_attempt _ (while_retry max) s1 o items good rest);
      try congruence.
    cbv zeta.
    rewrite (same_config_keys _ Hq1), (same_config_transform _ Hq1), Hd2, Hin, Hgm.
    cbn [negb]. rewrite while_retry_valid. reflexivity. }
  eexists. eexists. split.
  - unfold handle_question_and_answer.
    erewrite bind_run_Return by exact Hask. cbn [fst snd].
    erewrite report_outcome_run by reflexivity. reflexivity.
  - cbn [self stdin stdout answer with_answer with_attempt_count negb andb app].
    split; [reflexivity|]. split; [unfold attempt_count in *; cbn; clear -Hn Hn1; lia|].
    split; [reflexivity|].
    f_equal. f_equal. f_equal.
    unfold verdict_line, transform. cbn. now rewrite Hd2, Hd3, Hd4.
Qed.

Lemma first_valid_line_is_accepted_witness :
  exists st' out',
    handle_question_and_answer (Some 4)
      (mkState which_answer_is_A (["c"; "d"] ++ "b" :: ["x"]) [])
    = (Return tt, st')
    /\ answer (self st') = Some "b"
    /\ attempt_count (self st')
       = attempt_count which_answer_is_A + Z.of_nat (length ["c"; "d"]) + 1
    /\ stdin st' = ["x"]
    /\ stdout st' = (out' ++ [Print (verdict_line which_answer_is_A "b")])%list.
Proof.
  apply (@first_valid_line_is_accepted which_answer_is_A ("A", "Answer A")
           [("B", "Answer B")] (Some 4) ["c"; "d"] "b" ["x"] []);
    try reflexivity.
  repeat constructor.
Defined.

(** X10: on a well-authored multiple-choice question, when the input starts
    with as many invalid lines as attempts remain (at least one), the run
    returns after the last of them: [attempt_count] equals [max_attempts],
    the last invalid line is the stored answer, the lines after it are
    unread, and the run ends with the exhaustion notice followed by the
    feedback line for that last answer. *)
Theorem invalid_lines_exhaust_the_attempts
    (q : QuizQuestion) (o : string * string) (items : list (string * string))
    (qn : option Z) (invalids rest : list string) (out : list Out) :
  cls q = MultipleChoice ->
  options q = Some (o :: items) ->
  Str.truthy (correct_answer q) = true ->
  Str.mem (correct_answer q) (normalized_keys q (o :: items)) = true ->
  Forall (fun l => invalid_line q (o :: items) l = true) invalids ->
  invalids <> [] ->
  attempt_count q + Z.of_nat (length invalids)
  = max_attempts (response_settings q) ->
  exists st' out',
    handle_question_and_answer qn (mkState q (invalids ++ rest) out)
    = (Return tt, st')
    /\ answer (self st') = Some (last invalids "")
    /\ attempt_count (self st') = max_attempts (response_settings q)
    /\ stdin st' = rest
    /\ stdout st'
       = (out' ++ [Print (attempts_notice (max_attempts (response_settings q)));
                   Print (verdict_line q (last invalids ""))])%list.
Proof.
  intros Hcls Hopts Hca Hin Hall Hne Hlen.
  set (max := max_attempts (response_settings q)) in *.
  destruct (print_question_header_run qn (mkState q (invalids ++ rest) out))
    as (s0 & Hh & Hc & Hn & Hi).
  cbn [self stdin] in *.
  pose proof Hc as (Hc1 & Hc2 & Hc3 & Hc4 & Hc5).
  assert (W1 : cls (self s0) = MultipleChoice) by congruence.
  assert (W2 : options (self s0) = Some (o :: items)) by congruence.
  assert (W3 : Str.truthy (correct_answer (self s0)) = true) by congruence.
  assert (W4 : Str.mem (correct_answer (self s0))
                 (normalized_keys (self s0) (o :: items)) = true).
  { rewrite (same_config_keys _ Hc). congruence. }
  assert (W5 : Forall (fun l => invalid_line (self s0) (o :: items) l = true)
                 invalids).
  { eapply Forall_impl; [|exact Hall]. cbv beta. intros l Hl.
    unfold invalid_line in *.
    now rewrite (same_config_keys _ Hc), (same_config_transform _ Hc). }
  assert (W6 : attempt_count (self s0) + Z.of_nat (length invalids) <= max)
    by (clear -Hn Hlen; lia).
  destruct (@loop_through_invalid_lines max invalids s0 o items rest
              W1 W2 W3 W4 W5 Hi W6)
    as (s1 & Hw & Hc' & _ & Hn1 & Hi1 & _ & Hlast).
  specialize (Hlast Hne).
  pose proof (same_config_trans Hc Hc') as Hq1.
  assert (Hpos : 0 < Z.of_nat (length invalids)).
  { destruct invalids; [congruence|cbn [length]; lia]. }
  assert (Hask : ask_until_valid qn (mkState q (invalids ++ rest) out)
                 = (Return (max, false), s1)).
  { rewrite ask_until_valid_as_loop by (cbn [self]; clear -Hlen Hpos; lia).
    rewrite Hh. cbn [snd self]. fold max. rewrite Hw.
    rewrite while_retry_unfold. cbn [negb andb].
    replace (attempt_count (self s1) <? max) with false
      by (symmetry; apply Z.ltb_ge; clear -Hn Hn1 Hlen; lia).
    reflexivity. }
  eexists. eexists. split.
  - unfold handle_question_and_answer.
    erewrite bind_run_Return by exact Hask. cbn [fst snd].
    erewrite report_outcome_run by exact Hlast. reflexivity.
  - cbn [self stdin stdout negb andb].
    split; [exact Hlast|]. split; [clear -Hn Hn1 Hlen; lia|].
    split; [exact Hi1|].
    replace (attempt_count (self s1) =? max) with true
      by (symmetry; apply Z.eqb_eq; clear -Hn Hn1 Hlen; lia).
    cbn [app]. now rewrite (same_config_verdict _ Hq1).
Qed.

Lemma invalid_lines_exhaust_the_attempts_witness :
  exists st' out',
    handle_question_and_answer None
      (mkState gate_question (["maybe"; "q"; "later"] ++ ["y"]) [])
    = (Return tt, st')
    /\ answer (self st') = Some (last ["maybe"; "q"; "later"] "")
    /\ attempt_count (self st') = max_attempts (response_settings gate_question)
    /\ stdin st' = ["y"]
    /\ stdout st'
       = (out' ++ [Print (attempts_notice
                            (max_attempts (response_settings gate_question)));
                   Print (verdict_line gate_question
                            (last ["maybe"; "q"; "later"] ""))])%list.
Proof.
  apply (@invalid_lines_exhaust_the_attempts gate_question ("Y", "Yes")
           [("N", "No")] None ["maybe"; "q"; "later"] ["y"] []);
    try reflexivity; [repeat constructor|discriminate].
Defined.

(** ** Validation against correctness *)

Ltac unfold_attempt_in H :=
  cbv [prompt_question QuizQuestion_prompt_question MultipleChoice_prompt_question
       validate_response QuizQuestion_validate_response
       MultipleChoice_validate_response valid_possible_answers iter_options
       increment_attempts attempt_count base_prompt choice_prompt
       transform normalized_keys negb
       with_question with_answer with_attempt_count options_truthy answer_truthy
       bind ret raise lift get_self update_self emit print input
       self stdin stdout cls question correct_answer answer response_settings
       _attempt_count options transformation transformation_name] in H.

(** X11: when the correct answer is in normalized form, an answer that
    [validate_response] rejects as invalid is never a correct one. *)
Theorem rejected_answer_is_not_correct
    (st st' : State QuizQuestion) :
  validate_response st = (Return false, st') ->
  transform (self st) (correct_answer (self st)) = correct_answer (self st) ->
  is_correct_answer (self st') = Return false.
Proof.
  intros H Hnorm.
  pose proof (validate_response_frame _ H) as (Hs & _ & Hcls).
  specialize (Hcls eq_refl). rewrite Hs.
  destruct st as [[c text correct a tn t rs n opts] lines out].
  cbn [self cls correct_answer] in *. subst c.
  destruct (Str.truthy correct) eqn:Hca.
  2:{ unfold_attempt_in H. rewrite Hca in H. discriminate H. }
  destruct a as [a|].
  2:{ unfold_attempt_in H. rewrite Hca in H. discriminate H. }
  destruct (Str.truthy a) eqn:Ha.
  2:{ unfold_attempt_in H. rewrite Hca, Ha in H. discriminate H. }
  destruct opts as [items|].
  2:{ unfold_attempt_in H.
      repeat (first [rewrite Hca in H|rewrite Ha in H]; cbv beta iota in H).
      discriminate H. }
  pose proof (@choice_validate
                (mkState (mkQuizQuestion MultipleChoice text correct (Some a) tn t
                            rs n (Some items)) lines out)
                items a eq_refl eq_refl Hca eq_refl Ha) as Hcv.
  cbv zeta in Hcv. rewrite Hcv in H. clear Hcv.
  cbn [self correct_answer] in H.
  destruct (Str.mem correct _) eqn:Hin; cbn [negb] in H; [|discriminate H].
  destruct (Str.mem (transform _ a) _) eqn:Hout; cbn [negb] in H;
    [discriminate H|].
  unfold is_correct_answer. cbn [answer correct_answer]. f_equal.
  apply String.eqb_neq. intros Heq. rewrite Heq, Hnorm in Hout. congruence.
Qed.

Lemma rejected_answer_is_not_correct_witness :
  let q := with_attempt_count 1 (with_answer (Some "yes please") gate_question) in
  validate_response (mkState q [] [])
  = (Return false, mkState q [] [PrintInvalid "yes please" ["Y"; "N"] 2])
  /\ is_correct_answer q = Return false.
Proof.
  intros q.
  assert (Hv : validate_response (mkState q [] [])
               = (Return false,
                  mkState q [] [PrintInvalid "yes please" ["Y"; "N"] 2]))
    by (vm_compute; reflexivity).
  split; [exact Hv|].
  exact (@rejected_answer_is_not_correct _ _ Hv eq_refl).
Defined.

(** Without that condition the conclusion fails: in mode [swapcase], with
    correct answer ["A"] and option key ["a"], the answer ["A"] is rejected
    on every attempt and still counted as correct at the end. *)
Example swapcase_rejected_answer_is_correct :
  let q := mkQuizQuestion MultipleChoice "Pick a" "A" None "swapcase"
             str_swapcase (set_max_attempts 3 ResponseSettings_default) 0
             (Some [("a", "the letter a")]) in
  new_MultipleChoiceQuizQuestion "Pick a" "A" "swapcase" ResponseSettings_default
    (Some [("a", "the letter a")]) = Return q
  /\ exists st',
      handle_question_and_answer None (mkState q ["A"; "A"; "A"] [])
      = (Return tt, st')
      /\ attempt_count (self st') = 3
      /\ is_correct_answer (self st') = Return true
      /\ last (stdout st') (Print "") = Print "Correct!".
Proof.
  cbv zeta. split; [vm_compute; reflexivity|].
  eexists. split; [vm_compute; reflexivity|].
  repeat split; vm_compute; reflexivity.
Qed.

(** One attempt of a multiple-choice question whose [options] is [None] or
    the empty list always raises. *)
Lemma attempt_without_options {B} (k : bool -> Method B) s :
  cls (self s) = MultipleChoice ->
  options_truthy (options (self s)) = false ->
  exists e s',
    (prompt_question ;; increment_attempts ;; v <- validate_response ;; k v) s
    = (Raise e, s').
Proof.
  destruct s as [[c text correct a tn t rs n opts] lines out].
  cbn [self cls options]. intros -> Hopts.
  destruct opts as [[|o items]|]; try discriminate Hopts.
  - destruct lines as [|l1 [|l2 rest]];
      try (eexists; eexists; unfold_attempt; reflexivity).
    destruct (Str.truthy correct) eqn:Hca;
      [destruct (Str.truthy l2) eqn:Hl|];
      eexists; eexists; unfold_attempt;
      repeat (first [rewrite Hca|rewrite Hl]; cbv beta iota); reflexivity.
  - destruct lines as [|l1 rest];
      eexists; eexists; unfold_attempt; reflexivity.
Qed.

(** X12: a multiple-choice question whose options are missing ([None]) or
    empty can never be answered: [handle_question_and_answer] raises on
    every input. *)
Theorem question_without_options_never_returns
    (q : QuizQuestion) (qn : option Z) (lines : list string) (out : list Out) :
  cls q = MultipleChoice ->
  options_truthy (options q) = false ->
  exists e st',
    handle_question_and_answer qn (mkState q lines out) = (Raise e, st').
Proof.
  intros Hcls Hopts.
  destruct (print_question_header_run qn (mkState q lines out))
    as (s0 & Hh & Hc & _ & _). cbn [self] in Hc.
  destruct Hc as (Hc1 & _ & _ & _ & Hc5).
  destruct (@attempt_without_options _
              (fun is_valid_response : bool =>
                 q0 <- get_self ;;
                 is_valid_response <-
                   while_retry (max_attempts (response_settings q0))
                     is_valid_response ;;
                 ret (max_attempts (response_settings q0), is_valid_response))
              s0) as (e & s' & Hb); try congruence.
  exists e, s'. unfold handle_question_and_answer, ask_until_valid.
  apply bind_run_Raise. erewrite bind_run_Return by exact Hh. exact Hb.
Qed.

Lemma question_without_options_never_returns_witness :
  let q := mkQuizQuestion MultipleChoice "Do you want to play?" "Y" None "title"
             str_title (set_max_attempts 3 startup_response_settings) 0
             (Some []) in
  cls q = MultipleChoice /\ options_truthy (options q) = false
  /\ exists e st',
      handle_question_and_answer None (mkState q ["y"; "Y"; "n"] [])
      = (Raise e, st').
Proof.
  intros q. split; [reflexivity|]. split; [reflexivity|].
  exact (@question_without_options_never_returns q None ["y"; "Y"; "n"] []
           eq_refl eq_refl).
Defined.

(** ** Adding options *)

Lemma with_options_twice o1 o2 q :
  with_options o2 (with_options o1 q) = with_options o2 q.
Proof. reflexivity. Qed.

(** X13: [add_option] called for each item of a non-empty list in turn
    never raises and leaves the question with the options it had (none, if
    they were [None] or empty) followed by the items in call order; no other
    field, and nothing on the terminal, changes. *)
Theorem add_options_appends_in_order
    (item : string * string) (items : list (string * string))
    (q : QuizQuestion) (lines : list string) (out : list Out) :
  add_options (item :: items) (mkState q lines out)
  = (Return tt,
     mkState (with_options
                (Some (match options q with
                       | Some existing => existing
                       | None => []
                       end ++ item :: items)%list) q)
       lines out).
Proof.
  revert item q. induction items as [|item' items IH]; intros item q.
  - destruct item as [k v]. cbn [add_options].
    unfold add_option, bind, update_self, ret. cbn [self stdin stdout fst snd].
    destruct (options q) as [[|o l]|]; reflexivity.
  - change (add_options (item :: item' :: items))
      with (add_option item ;; add_options (item' :: items)).
    unfold bind. destruct item as [k v].
    unfold add_option at 1, update_self. cbn [self stdin stdout fst snd].
    rewrite IH. rewrite with_options_twice. cbn [options with_options].
    rewrite <- app_assoc. cbn [app].
    destruct (options q) as [[|o l]|]; reflexivity.
Qed.

(** ** The score *)

Lemma call_inv {A} obj (m : Method A) (st : State SimpleQuiz) r st' :
  call obj m st = (Return r, st') ->
  exists s,
    m (mkState obj (stdin st) (stdout st)) = (Return (fst r), s)
    /\ snd r = self s
    /\ st' = mkState (self st) (stdin s) (stdout s).
Proof.
  unfold call. destruct (m _) as [[a|e] s]; intros H; inversion H; subst.
  exists s. repeat split.
Qed.

Lemma update_score_frame question st r st' :
  update_score question st = (r, st') ->
  stdin st' = stdin st /\ stdout st' = stdout st
  /\ (score (self st') = score (self st)
      \/ score (self st')
         = score (self st) + correct_points (response_settings question)).
Proof.
  unfold update_score, bind, lift, update_self, ret.
  destruct (is_correct_answer question) as [[|]|e]; intros H; inversion H; subst;
    cbn; auto.
Qed.

Lemma start_quiz_from_score questions : forall num st st',
  Forall (fun q => 0 <= correct_points (response_settings q) <= 1) questions ->
  start_quiz_from num questions st = (Return tt, st') ->
  score (self st) <= score (self st')
  <= score (self st) + Z.of_nat (length questions).
Proof.
  induction questions as [|q qs IH]; intros num st st' Hall H.
  - cbn in H. unfold ret in H. inversion H; subst. cbn. lia.
  - inversion Hall as [|? ? Hq Hqs]; subst. cbn [start_quiz_from] in H.
    apply bind_Return_inv in H as (r & s1 & Hcall & H).
    apply call_inv in Hcall as (s & Hh & Hr & ->).
    destruct r as [[] q']. cbn [fst snd] in *. subst q'.
    apply handle_question_and_answer_inv in Hh as ((_ & _ & _ & Hrs & _) & _ & _).
    cbn [self] in Hrs.
    apply bind_Return_inv in H as ([] & s2 & Hu & H).
    apply update_score_frame in Hu as (_ & _ & Hsc). cbn [self] in Hsc.
    rewrite Hrs in Hsc.
    apply IH in H; [|exact Hqs]. cbn [length].
    clear -Hq Hsc H. lia.
Qed.

Lemma call_self {A} obj (m : Method A) (st : State SimpleQuiz) r st' :
  call obj m st = (r, st') -> self st' = self st.
Proof.
  unfold call. destruct (m _) as [[a|e] s]; intros H; injection H as _ <-;
    reflexivity.
Qed.

Unset Implicit Arguments.

Lemma startup_self (st : State SimpleQuiz) (b : bool) (st' : State SimpleQuiz) :
  startup st = (Return b, st') -> self st' = self st.
Proof.
  unfold startup, startup_question. intros H.
  apply bind_Return_inv in H as (gate & s1 & H & Hl).
  unfold lift in Hl. injection Hl as _ <-.
  apply bind_Return_inv in H as ([] & s2 & Hp & H).
  unfold print, emit in Hp. injection Hp as <-.
  apply bind_Return_inv in H as (q0 & s3 & Hn & H).
  unfold lift in Hn. injection Hn as _ <-.
  apply bind_Return_inv in H as (r1 & s4 & H1 & H). apply call_self in H1.
  apply bind_Return_inv in H as (r2 & s5 & H2 & H). apply call_self in H2.
  apply bind_Return_inv in H as (r3 & s6 & H3 & H). apply call_self in H3.
  unfold ret in H. injection H as _ <-.
  rewrite H3, H2, H1. reflexivity.
Qed.

Lemma get_list_of_questions_eq :
  get_list_of_questions
  = Return [mkQuizQuestion Base "What does CPU stand for?"
              "Central Processing Unit" None "title" str_title
              ResponseSettings_default 0 None;
            mkQuizQuestion Base "What does RAM stand for?"
              "Random Access Memory" None "title" str_title
              ResponseSettings_default 0 None;
            mkQuizQuestion Base "What does GPU stand for?"
              "Graphics Processing Unit" None "title" str_title
              ResponseSettings_default 0 None;
            which_answer_is_A].
Proof. vm_compute. reflexivity. Qed.

(** X14: whatever the input, when [main] returns the score lies between 0
    and 4; and if the gate was opened, the last line written is the score
    line, which reports that score out of 4. *)
Theorem final_score_is_between_0_and_4
    (lines : list string) (st : State SimpleQuiz) :
  main lines = (Return tt, st) ->
  0 <= score (self st) <= 4
  /\ (fst (startup (mkState (mkSimpleQuiz 0) lines [])) = Return true ->
      exists out',
        stdout st
        = (out' ++ [Print (Str.newline ++ "Score: "
                           ++ Str.of_Z (score (self st)) ++ " / 4")])%list).
Proof.
  unfold main, main_with. intros H.
  apply bind_Return_inv in H as (play & s1 & Hs & H).
  pose proof (startup_self _ _ _ Hs) as Hself. cbn [self] in Hself.
  rewrite Hs. cbn [fst].
  destruct play.
  2:{ unfold ret in H. injection H as <-. rewrite Hself. cbn [score].
      split; [lia|discriminate]. }
  apply bind_Return_inv in H as ([] & s2 & Hq & Hd).
  unfold start_quiz in Hq. rewrite get_list_of_questions_eq in Hq.
  unfold bind at 1, lift in Hq. cbv beta match in Hq.
  apply start_quiz_from_score in Hq.
  2:{ repeat constructor; cbn; lia. }
  rewrite Hself in Hq. cbn [score length] in Hq.
  unfold display_score in Hd. rewrite get_list_of_questions_eq in Hd.
  cbv [bind get_self lift print emit ret length] in Hd.
  injection Hd as <-. cbn [self stdout].
  split; [clear -Hq; lia|]. intros _. eexists. reflexivity.
Qed.

Lemma final_score_is_between_0_and_4_witness :
  let lines' := ["Y"; "cpu"; "Random Access Memory"; "gpu"; "z"; "B"] in
  main lines' = (Return tt, snd (main lines'))
  /\ 0 <= score (self (snd (main lines'))) <= 4
  /\ (fst (startup (mkState (mkSimpleQuiz 0) lines' [])) = Return true ->
      exists out',
        stdout (snd (main lines'))
        = (out' ++ [Print (Str.newline ++ "Score: "
                           ++ Str.of_Z (score (self (snd (main lines'))))
                           ++ " / 4")])%list).
Proof.
  intros lines'.
  assert (Hrun : main lines' = (Return tt, snd (main lines')))
    by (vm_compute; reflexivity).
  split; [exact Hrun|].
  exact (final_score_is_between_0_and_4 lines' (snd (main lines')) Hrun).
Defined.

Lemma handle_attempts_bound
    (qn : option Z) (st st' : State QuizQuestion) :
  handle_question_and_answer qn st = (Return tt, st') ->
  attempt_count (self st) + 1 <= max_attempts (response_settings (self st)) ->
  attempt_count (self st') <= max_attempts (response_settings (self st)).
Proof.
  unfold handle_question_and_answer. intros H Hle.
  apply bind_Return_inv in H as ([m v] & s1 & Ha & Hr).
  apply ask_until_valid_inv in Ha as (Hm & _ & _ & Hb & _).
  apply report_outcome_frame in Hr as (Hs & _). rewrite Hs.
  rewrite <- Hm. apply Hb. rewrite Hm. exact Hle.
Qed.

(** X15: when [startup] returns, it has read between one and three lines
    from the front of the input, and its value is true exactly when the
    last line read, in title case, is ["Y"]; the quiz object is untouched. *)
Theorem startup_decides_on_the_last_line_read
    (st st' : State SimpleQuiz) (b : bool) :
  startup st = (Return b, st') ->
  exists consumed,
    stdin st = (consumed ++ stdin st')%list
    /\ (1 <= length consumed <= 3)%nat
    /\ b = String.eqb (Str.title (last consumed "")) "Y"
    /\ self st' = self st.
Proof.
  intros H. pose proof (startup_self _ _ _ H) as Hself.
  unfold startup in H.
  apply bind_Return_inv in H as (gate & s1 & Hq & Hl).
  unfold lift in Hl. injection Hl as Hcorrect <-.
  rewrite startup_question_eq in Hq.
  destruct (handle_question_and_answer None _) as [[[]|e] s] eqn:Hh;
    [|discriminate Hq].
  injection Hq as <- <-. cbn [stdin] in *.
  pose proof (@lines_read_by_handle gate_question None (stdin st) _ s eq_refl Hh)
    as (consumed & Hlines & Hne & Hlen & Hans).
  pose proof (handle_attempts_bound _ _ _ Hh) as Hmax.
  cbn [self] in Hmax.
  pose proof (@handle_question_and_answer_inv _ _ _ Hh)
    as ((_ & Hca & Ht & _) & _ & _).
  cbn [self] in Hca, Ht.
  exists consumed. split; [exact Hlines|]. split.
  - specialize (Hmax ltac:(vm_compute; discriminate)).
    change (max_attempts (response_settings gate_question)) with 3 in Hmax.
    change (attempt_count gate_question) with 0 in Hlen.
    destruct consumed; [congruence|]. cbn [length] in *. clear -Hmax Hlen. lia.
  - split; [|exact Hself].
    unfold is_correct_answer in Hcorrect. rewrite Hans in Hcorrect.
    unfold transform in Hcorrect. rewrite Ht, Hca in Hcorrect.
    injection Hcorrect as <-. reflexivity.
Qed.

Lemma startup_decides_on_the_last_line_read_witness :
  let st := mkState (mkSimpleQuiz 0) ["what?"; "n"; "y"] [] in
  startup st = (Return false, snd (startup st))
  /\ exists consumed,
      stdin st = (consumed ++ stdin (snd (startup st)))%list
      /\ (1 <= length consumed <= 3)%nat
      /\ false = String.eqb (Str.title (last consumed "")) "Y"
      /\ self (snd (startup st)) = self st.
Proof.
  intros st.
  assert (Hrun : startup st = (Return false, snd (startup st)))
    by (vm_compute; reflexivity).
  split; [exact Hrun|].
  exact (startup_decides_on_the_last_line_read st (snd (startup st)) false Hrun).
Defined.

Set Implicit Arguments.
